(** * week6.py: the image downloader

    A shallow embedding of [create_directory], [get_valid_filename],
    [download_image] and [main] of week6.py, with the library functions
    they call (str methods, [urllib.parse.urlparse], [posixpath], [re.sub],
    [requests], the file system and the console).

    Conventions.
    - A Python [str] is a [string]; each [ascii] is the code point of the
      same number, so the strings covered are those over U+0000..U+00FF.
      The character classes ([\w], [str.isspace], [str.lower]) are the
      Unicode ones restricted to that range.
    - A Python exception is a value of [exn]; code that may raise returns a
      [result].  The classes are instances of [Exception]: a run of the
      model is a run that no [KeyboardInterrupt] and no [SystemExit] cuts
      short.
    - The console, the file system and the network are a [world] threaded
      through the stateful functions. *)

From Stdlib Require Import Ascii String NArith ZArith List Lia.
From stdpp Require Import base strings gmap pretty.

Local Open Scope Z_scope.

(** ** Exceptions *)

(** The exception classes that the program can meet: the builtin ones and
    those of [requests.exceptions], all of them below [Exception]. *)
Inductive exn_class :=
  | Exception | OSError | ValueError | EOFError
  | FileExistsError | FileNotFoundError | IsADirectoryError | PermissionError
  | RequestException | HTTPError | ConnectionError | Timeout
  | ConnectTimeout | ReadTimeout | SSLError | TooManyRedirects
  | InvalidURL | MissingSchema | ChunkedEncodingError.

Global Instance exn_class_eq_dec : EqDecision exn_class.
Proof. solve_decision. Defined.

(** An exception: its class and the text of [str(e)]. *)
Record exn := Exn { exn_cls : exn_class; exn_str : string }.

Inductive result (A : Type) :=
  | Ok (a : A)
  | Raise (e : exn).
Arguments Ok {A} a.
Arguments Raise {A} e.

(** ** Python strings *)

Module PyStr.

Definition code (c : ascii) : N := N_of_ascii c.

Definition in_range (lo hi : N) (c : ascii) : bool :=
  ((lo <=? code c) && (code c <=? hi))%N.

(** [c in s] for a one-character [c]. *)
Fixpoint contains (c : ascii) (s : string) : bool :=
  match s with
  | EmptyString => false
  | String a s' => if Ascii.eqb a c then true else contains c s'
  end.

(** [s.split(sep)] for a one-character separator: never the empty list. *)
Fixpoint split (sep : ascii) (s : string) : list string :=
  match s with
  | EmptyString => [EmptyString]
  | String a s' =>
      if Ascii.eqb a sep then EmptyString :: split sep s'
      else match split sep s' with
           | [] => [String a EmptyString]
           | w :: ws => String a w :: ws
           end
  end.

(** [l[0]] and [l[-1]] on the lists that [split] returns. *)
Definition item_first (l : list string) : string := hd EmptyString l.
Definition item_last (l : list string) : string := List.last l EmptyString.

(** [s.find(c)] and [s.rfind(c)]: [-1] when [c] does not occur. *)
Fixpoint find (c : ascii) (s : string) : Z :=
  match s with
  | EmptyString => -1
  | String a s' =>
      if Ascii.eqb a c then 0
      else let i := find c s' in if i <? 0 then -1 else i + 1
  end.

Fixpoint rfind (c : ascii) (s : string) : Z :=
  match s with
  | EmptyString => -1
  | String a s' =>
      let i := rfind c s' in
      if 0 <=? i then i + 1 else if Ascii.eqb a c then 0 else -1
  end.

(** The slices [s[:n]] and [s[n:]] for [0 <= n]. *)
Fixpoint take (n : nat) (s : string) : string :=
  match n, s with
  | S k, String a s' => String a (take k s')
  | _, _ => EmptyString
  end.

Fixpoint drop (n : nat) (s : string) : string :=
  match n, s with
  | S k, String _ s' => drop k s'
  | _, _ => s
  end.

Definition slice_to (i : Z) (s : string) : string := take (Z.to_nat i) s.
Definition slice_from (i : Z) (s : string) : string := drop (Z.to_nat i) s.

(** [s.find(c, start)] for [0 <= start]. *)
Definition find_from (c : ascii) (start : Z) (s : string) : Z :=
  let i := find c (slice_from start s) in
  if i <? 0 then -1 else start + i.

(** [s.replace(c, "")]. *)
Fixpoint remove (c : ascii) (s : string) : string :=
  match s with
  | EmptyString => EmptyString
  | String a s' => if Ascii.eqb a c then remove c s' else String a (remove c s')
  end.

Definition startswith (p s : string) : bool := String.prefix p s.

Fixpoint endswith_char (c : ascii) (s : string) : bool :=
  match s with
  | EmptyString => false
  | String a EmptyString => Ascii.eqb a c
  | String _ s' => endswith_char c s'
  end.

(** [str.isspace] on U+0000..U+00FF. *)
Definition isspace (c : ascii) : bool :=
  in_range 9 13 c || in_range 28 32 c || (code c =? 133)%N || (code c =? 160)%N.

Fixpoint lstrip_by (p : ascii -> bool) (s : string) : string :=
  match s with
  | EmptyString => EmptyString
  | String a s' => if p a then lstrip_by p s' else s
  end.

Fixpoint rstrip_by (p : ascii -> bool) (s : string) : string :=
  match s with
  | EmptyString => EmptyString
  | String a s' =>
      match rstrip_by p s' with
      | EmptyString => if p a then EmptyString else String a EmptyString
      | r => String a r
      end
  end.

(** [s.strip()]. *)
Definition strip (s : string) : string := rstrip_by isspace (lstrip_by isspace s).

(** [str.lower] on U+0000..U+00FF: A-Z, and the capitals of U+00C0..U+00DE
    except the multiplication sign U+00D7. *)
Definition lower_char (c : ascii) : ascii :=
  if in_range 65 90 c || in_range 192 214 c || in_range 216 222 c
  then ascii_of_N (code c + 32)
  else c.

Fixpoint lower (s : string) : string :=
  match s with
  | EmptyString => EmptyString
  | String a s' => String (lower_char a) (lower s')
  end.

Fixpoint all_chars (p : ascii -> bool) (s : string) : bool :=
  match s with
  | EmptyString => true
  | String a s' => p a && all_chars p s'
  end.

Fixpoint map_chars (f : ascii -> ascii) (s : string) : string :=
  match s with
  | EmptyString => EmptyString
  | String a s' => String (f a) (map_chars f s')
  end.

(** [str.isprintable] on U+0000..U+00FF. *)
Definition isprintable (c : ascii) : bool :=
  in_range 32 126 c || (in_range 161 255 c && negb (code c =? 173)%N).

Definition hex_digit (n : N) : ascii :=
  ascii_of_N (if (n <? 10)%N then 48 + n else 87 + n).

(** One character of [repr(s)], between quotes that are [quote]. *)
Definition repr_char (quote c : ascii) : string :=
  if Ascii.eqb c quote || Ascii.eqb c "\" then String "\" (String c EmptyString)
  else if (code c =? 9)%N then "\t"
  else if (code c =? 10)%N then "\n"
  else if (code c =? 13)%N then "\r"
  else if isprintable c then String c EmptyString
  else String "\" (String "x" (String (hex_digit (code c / 16))
                                 (String (hex_digit (code c mod 16)) EmptyString))).

Fixpoint repr_chars (quote : ascii) (s : string) : string :=
  match s with
  | EmptyString => String quote EmptyString
  | String a s' => repr_char quote a +:+ repr_chars quote s'
  end.

(** [repr(s)]: between double quotes when [s] has a single quote and no
    double quote, between single quotes otherwise. *)
Definition repr (s : string) : string :=
  let quote : ascii :=
    if contains "'" s && negb (contains "034"%char s) then "034"%char else "'"%char in
  String quote (repr_chars quote s).

(** ASCII letters and digits. *)
Definition is_ascii_alpha (c : ascii) : bool := in_range 65 90 c || in_range 97 122 c.
Definition is_ascii_digit (c : ascii) : bool := in_range 48 57 c.

End PyStr.

(** ** The [re] module *)

Module Re.
Import PyStr.

(** The class [\w] of a [str] pattern: the characters for which
    [str.isalnum] holds, and the underscore.  On U+0000..U+00FF these are
    the ASCII letters and digits, [_], and the Latin-1 letters and
    numerals listed. *)
Definition is_word (c : ascii) : bool :=
  is_ascii_digit c || is_ascii_alpha c || (code c =? 95)%N
  || (code c =? 170)%N || in_range 178 179 c || (code c =? 181)%N
  || in_range 185 186 c || in_range 188 190 c
  || in_range 192 214 c || in_range 216 246 c || in_range 248 255 c.

(** The set [[\w\-_.]]. *)
Definition in_safe_class (c : ascii) : bool :=
  is_word c || Ascii.eqb c "-" || Ascii.eqb c "_" || Ascii.eqb c ".".

(** [re.sub(r'[^\w\-_.]', '_', s)]: every character outside the class is
    replaced by an underscore. *)
Definition sub_unsafe (s : string) : string :=
  map_chars (fun c => if in_safe_class c then c else "_"%char) s.

End Re.

(** ** [urllib.parse] *)

Module UrlParse.
Import PyStr.

(** The six components of [ParseResult]. *)
Record ParseResult := {
  scheme : string;
  netloc : string;
  path : string;
  params : string;
  query : string;
  fragment : string
}.

Definition uses_params : list string :=
  [""; "ftp"; "hdl"; "prospero"; "http"; "imap"; "https"; "shttp"; "rtsp";
   "rtspu"; "sip"; "sips"; "mms"; "sftp"; "tel"].

(** Membership in [scheme_chars]: letters, digits, [+], [-], [.]. *)
Definition is_scheme_char (c : ascii) : bool :=
  is_ascii_alpha c || is_ascii_digit c
  || Ascii.eqb c "+" || Ascii.eqb c "-" || Ascii.eqb c ".".

(** The leading characters that [urlsplit] strips: U+0000..U+0020. *)
Definition is_c0_control_or_space (c : ascii) : bool := (code c <=? 32)%N.

(** [url.split(c, 1)] when [c] occurs in [url]: the text before the first
    occurrence and the text after it. *)
Definition split_once (c : ascii) (url : string) : string * string :=
  let i := find c url in (slice_to i url, slice_from (i + 1) url).

(** [_splitnetloc(url, 2)]: the authority ends at the first of [/], [?],
    [#], or at the end of the string. *)
Definition splitnetloc (url : string) : string * string :=
  let delim_of (c : ascii) (delim : Z) :=
    let wdelim := find_from c 2 url in
    if 0 <=? wdelim then Z.min delim wdelim else delim in
  let delim :=
    delim_of "#"%char (delim_of "?"%char (delim_of "/"%char (Z.of_nat (String.length url)))) in
  (slice_to (delim - 2) (slice_from 2 url), slice_from delim url).

(** [urlsplit(url)] of CPython 3.11 with the default scheme and
    [allow_fragments=True]; it returns scheme, netloc, path, query and
    fragment.  It raises [ValueError] on an authority with one square
    bracket but not the other.  The check of the authority under NFKC
    normalization never fails on U+0000..U+00FF.  Recent releases also
    reject some authorities that have both brackets; those checks are not
    modelled, so the model accepts at least the URLs that the library
    accepts, with the same components. *)
Definition urlsplit (url : string)
  : result (string * string * string * string * string) :=
  let url := lstrip_by is_c0_control_or_space url in
  let url := remove "010" (remove "013" (remove "009" url)) in
  let i := find ":" url in
  let '(scheme, url) :=
    if (0 <? i)
       && match url with String c _ => is_ascii_alpha c | EmptyString => false end
       && all_chars is_scheme_char (slice_to i url)
    then (lower (slice_to i url), slice_from (i + 1) url)
    else (EmptyString, url) in
  let '(netloc, url) :=
    if String.eqb (take 2 url) "//" then splitnetloc url else (EmptyString, url) in
  if (contains "[" netloc && negb (contains "]" netloc))
     || (contains "]" netloc && negb (contains "[" netloc))
  then Raise (Exn ValueError "Invalid IPv6 URL")
  else
    let '(url, fragment) :=
      if contains "#" url then split_once "#" url else (url, EmptyString) in
    let '(url, query) :=
      if contains "?" url then split_once "?" url else (url, EmptyString) in
    Ok (scheme, netloc, url, query, fragment).

(** [_splitparams(url)], called when [;] occurs in [url]. *)
Definition splitparams (url : string) : string * string :=
  if contains "/" url then
    let i := find_from ";" (rfind "/" url) url in
    if i <? 0 then (url, EmptyString)
    else (slice_to i url, slice_from (i + 1) url)
  else
    let i := find ";" url in (slice_to i url, slice_from (i + 1) url).

Definition urlparse (url : string) : result ParseResult :=
  match urlsplit url with
  | Raise e => Raise e
  | Ok (scheme, netloc, url, query, fragment) =>
      let '(url, params) :=
        if bool_decide (scheme ∈ uses_params) && contains ";" url
        then splitparams url
        else (url, EmptyString) in
      Ok {| scheme := scheme; netloc := netloc; path := url;
            params := params; query := query; fragment := fragment |}
  end.

End UrlParse.

(** ** [os.path] on a POSIX system *)

Module PosixPath.
Import PyStr.

(** [os.path.basename(p)]. *)
Definition basename (p : string) : string :=
  let i := rfind "/" p + 1 in
  slice_from i p.

(** [os.path.join(a, b)]. *)
Definition join (a b : string) : string :=
  if startswith "/" b then b
  else if String.eqb a EmptyString || endswith_char "/" a then a +:+ b
  else a +:+ "/" +:+ b.

(** [os.path.splitext(p)]: the extension starts at the last dot of the
    final component, unless only dots precede it there. *)
Definition splitext (p : string) : string * string :=
  let sepIndex := rfind "/" p in
  let dotIndex := rfind "." p in
  if sepIndex <? dotIndex then
    let filenameIndex := sepIndex + 1 in
    (* the while loop returns at the first character of
       p[filenameIndex:dotIndex] that is not a dot *)
    if all_chars (Ascii.eqb ".") (slice_to (dotIndex - filenameIndex) (slice_from filenameIndex p))
    then (p, EmptyString)
    else (slice_to dotIndex p, slice_from dotIndex p)
  else (p, EmptyString).

End PosixPath.

(** ** The clock *)

(** The fields of [datetime.now()]. *)
Record datetime := {
  year : nat; month : nat; day : nat;
  hour : nat; minute : nat; second : nat
}.

(** A decimal number zero-padded to two digits ([%m], [%d], [%H], [%M], [%S]). *)
Definition pad2 (n : nat) : string :=
  if (n <? 10)%nat then "0" +:+ pretty n else pretty n.

(** [t.strftime("%Y%m%d_%H%M%S")]; [%Y] is the year in decimal (four digits
    from the year 1000 on). *)
Definition strftime (t : datetime) : string :=
  pretty (year t) +:+ pad2 (month t) +:+ pad2 (day t) +:+ "_"
  +:+ pad2 (hour t) +:+ pad2 (minute t) +:+ pad2 (second t).

(** ** The Filename Resolver: [get_valid_filename] *)

Section Resolver.
Import PyStr.

(** Lines 22-23: the last segment of the URL's path. *)
Definition url_candidate (url : string) : result string :=
  match UrlParse.urlparse url with
  | Raise e => Raise e
  | Ok parsed_url => Ok (PosixPath.basename (UrlParse.path parsed_url))
  end.

(** Line 26: [not filename or '.' not in filename or len(filename) > 100]. *)
Definition candidate_rejected (filename : string) : bool :=
  String.eqb filename "" || negb (contains "." filename)
  || (100 <? String.length filename)%nat.

(** Lines 28-33: the extension taken from the content type. *)
Definition content_type_extension (content_type : string) : string :=
  if negb (String.eqb content_type "") && contains "/" content_type then
    let extension := item_last (split "/" content_type) in
    strip (item_first (split ";" extension))
  else "bin".

(** Lines 36-38: the name made from the time stamp. *)
Definition timestamp_filename (now : datetime) (content_type : string) : string :=
  let extension := content_type_extension content_type in
  let timestamp := strftime now in
  "image_" +:+ timestamp +:+ "." +:+ extension.

(** Lines 22-41: the filename before the substitution of line 45. *)
Definition unsanitized_filename (now : datetime) (url content_type : string)
  : result string :=
  match url_candidate url with
  | Raise e => Raise e
  | Ok filename =>
      let filename :=
        if candidate_rejected filename
        then timestamp_filename now content_type
        else filename in
      Ok (item_first (split "?" filename))
  end.

(** [get_valid_filename(url, content_type)], with the clock read by
    [datetime.now()] as the argument [now]. *)
Definition get_valid_filename (now : datetime) (url content_type : string)
  : result string :=
  match unsanitized_filename now url content_type with
  | Raise e => Raise e
  | Ok filename => Ok (Re.sub_unsafe filename)
  end.

End Resolver.

(** ** The world: console, file system, network *)

(** The modes of [open]: ['wb'] creates the file or truncates an existing
    one; ['xb'] creates it and fails when it exists. *)
Inductive open_mode := WriteBinary | ExclusiveBinary.

(** What the program does to the outside, in order. *)
Inductive event :=
  | EvPrint (line : string)
  | EvProgress (downloaded total_size : Z)
  | EvPrompt (prompt : string)
  | EvGet (url : string)
  | EvMakedirs (path : string)
  | EvOpen (path : string) (mode : open_mode)
  | EvWrite (path : string) (chunk : list Byte.byte).

(** A response of the server: status line, [response.url] (the URL of the
    request that was answered, as prepared by the library and after any
    redirection), the two headers that are read, the body, the lengths of
    the pieces in which the library hands the body over when pieces of a
    given size are asked for, and the error (if any) that ends the stream
    after the body bytes received so far. *)
Record response := {
  status_code : Z;
  reason : string;
  response_url : string;
  content_type_header : option string;
  content_length_header : option string;
  body : list Byte.byte;
  piece_lengths : N -> list positive;
  stream_error : option exn
}.

Inductive reply :=
  | Fails (e : exn)
  | Responds (r : response).

(** What the outside answers during one pass of the loop. *)
Record environ := {
  clock : datetime;
  http : string -> reply;
  open_error : string -> option exn;
  makedirs_error : string -> option exn
}.

Record world := {
  files : gmap string (list Byte.byte);
  dirs : gset string;
  stdin : list string;
  trace : list event
}.

Definition set_files (f : gmap string (list Byte.byte)) (w : world) : world :=
  {| files := f; dirs := dirs w; stdin := stdin w; trace := trace w |}.
Definition set_dirs (d : gset string) (w : world) : world :=
  {| files := files w; dirs := d; stdin := stdin w; trace := trace w |}.
Definition set_stdin (i : list string) (w : world) : world :=
  {| files := files w; dirs := dirs w; stdin := i; trace := trace w |}.
Definition log (e : event) (w : world) : world :=
  {| files := files w; dirs := dirs w; stdin := stdin w; trace := trace w ++ [e] |}.

(** A computation on the world returns a value or raises; [None] is a loop
    that has not ended within the fuel of the model. *)
Definition M (A : Type) : Type := world -> option (result A * world).

Definition ret {A} (a : A) : M A := fun w => Some (Ok a, w).
Definition raise {A} (e : exn) : M A := fun w => Some (Raise e, w).
Definition diverge {A} : M A := fun _ => None.
Definition bind {A B} (m : M A) (k : A -> M B) : M B :=
  fun w =>
    match m w with
    | Some (Ok a, w') => k a w'
    | Some (Raise e, w') => Some (Raise e, w')
    | None => None
    end.

Definition map_result {A B} (f : A -> B) (m : M A) : M B :=
  bind m (fun a => ret (f a)).

Declare Scope py_scope.
Delimit Scope py_scope with py.
Notation "x ← y ; z" := (bind y (fun x => z))
  (at level 20, y at level 100, z at level 200, only parsing) : py_scope.
Notation "x ;; z" := (bind x (fun _ => z))
  (at level 100, z at level 200, only parsing, right associativity) : py_scope.
Local Open Scope py_scope.

Definition lift {A} (r : result A) : M A :=
  match r with Ok a => ret a | Raise e => raise e end.

Definition emit (e : event) : M unit :=
  fun w => Some (Ok tt, log e w).

Definition print (line : string) : M unit := emit (EvPrint line).

(** [input(prompt)]: [EOFError] when the input has ended. *)
Definition input (prompt : string) : M string :=
  emit (EvPrompt prompt) ;;
  fun w =>
    match stdin w with
    | [] => Some (Raise (Exn EOFError "EOF when reading a line"), w)
    | line :: rest =>
        Some (Ok line, set_stdin rest w)
    end.

(** *** Exception handling *)

Definition bases (c : exn_class) : list exn_class :=
  match c with
  | Exception => []
  | OSError | ValueError | EOFError => [Exception]
  | FileExistsError | FileNotFoundError | IsADirectoryError | PermissionError => [OSError]
  | RequestException => [OSError]
  | HTTPError | ConnectionError | Timeout | TooManyRedirects | ChunkedEncodingError =>
      [RequestException]
  | ConnectTimeout => [ConnectionError; Timeout]
  | ReadTimeout => [Timeout]
  | SSLError => [ConnectionError]
  | InvalidURL | MissingSchema => [RequestException; ValueError]
  end.

Fixpoint issubclass_upto (depth : nat) (c d : exn_class) : bool :=
  bool_decide (c = d)
  || match depth with
     | O => false
     | S k => existsb (fun b => issubclass_upto k b d) (bases c)
     end.

(** [issubclass(c, d)]; no class is more than four steps below [Exception]. *)
Definition issubclass (c d : exn_class) : bool := issubclass_upto 4 c d.

(** [try: body except c1: h1 except c2: h2 ...]: the first clause whose class
    the exception is an instance of handles it; with no such clause the
    exception goes on. *)
Definition try_except {A} (body : M A) (clauses : list (exn_class * (exn -> M A))) : M A :=
  fun w =>
    match body w with
    | Some (Raise e, w') =>
        match List.find (fun cl => issubclass (exn_cls e) (fst cl)) clauses with
        | Some cl => snd cl e w'
        | None => Some (Raise e, w')
        end
    | other => other
    end.

(** *** The file system *)

(** The text of an [OSError] quotes the path as it is: that of [str(e)] for
    a path that [repr] leaves unchanged. *)

(** [os.path.exists(p)]. *)
Definition path_exists (w : world) (p : string) : bool :=
  bool_decide (p ∈ dom (files w)) || bool_decide (p ∈ dirs w).

(** [os.makedirs(p, exist_ok=True)]. *)
Definition makedirs (env : environ) (p : string) : M unit :=
  emit (EvMakedirs p) ;;
  fun w =>
    match makedirs_error env p with
    | Some e => Some (Raise e, w)
    | None =>
        if bool_decide (p ∈ dom (files w))
        then Some (Raise (Exn FileExistsError ("[Errno 17] File exists: '" +:+ p +:+ "'")), w)
        else Some (Ok tt, set_dirs ({[p]} ∪ dirs w) w)
    end.

(** [open(p, mode)] for writing.  A path whose last component is [.] or [..]
    names a directory and is never opened for writing. *)
Definition open_file (env : environ) (p : string) (mode : open_mode) : M unit :=
  emit (EvOpen p mode) ;;
  fun w =>
    match open_error env p with
    | Some e => Some (Raise e, w)
    | None =>
        if bool_decide (PosixPath.basename p ∈ ["."; ".."]) || bool_decide (p ∈ dirs w)
        then Some (Raise (Exn IsADirectoryError ("[Errno 21] Is a directory: '" +:+ p +:+ "'")), w)
        else
          match mode, files w !! p with
          | ExclusiveBinary, Some _ =>
              Some (Raise (Exn FileExistsError ("[Errno 17] File exists: '" +:+ p +:+ "'")), w)
          | _, _ =>
              Some (Ok tt, set_files (<[p := []]> (files w)) w)
          end
    end.

(** [file.write(chunk)] on the file opened at [p]. *)
Definition file_write (p : string) (chunk : list Byte.byte) : M unit :=
  emit (EvWrite p chunk) ;;
  fun w =>
    Some (Ok tt, set_files (<[p := default [] (files w !! p) ++ chunk]> (files w)) w).

(** [os.path.getsize(p)]. *)
Definition getsize (p : string) : M N :=
  fun w =>
    match files w !! p with
    | Some content => Some (Ok (N.of_nat (length content)), w)
    | None =>
        Some (Raise (Exn FileNotFoundError
                       ("[Errno 2] No such file or directory: '" +:+ p +:+ "'")), w)
    end.

(** *** The [requests] library *)

(** [requests.get(url, headers=..., stream=True, timeout=15)]: one request. *)
Definition requests_get (env : environ) (url : string) : M response :=
  emit (EvGet url) ;;
  match http env url with
  | Fails e => raise e
  | Responds r => ret r
  end.

(** [response.raise_for_status()]; the text names [response.url]. *)
Definition raise_for_status (r : response) : M unit :=
  if (400 <=? status_code r) && (status_code r <? 500) then
    raise (Exn HTTPError (pretty (status_code r) +:+ " Client Error: " +:+ reason r
                          +:+ " for url: " +:+ response_url r))
  else if (500 <=? status_code r) && (status_code r <? 600) then
    raise (Exn HTTPError (pretty (status_code r) +:+ " Server Error: " +:+ reason r
                          +:+ " for url: " +:+ response_url r))
  else ret tt.

(** [data] cut into pieces of the lengths given, each of one byte at least;
    what is left after the last length is one more piece. *)
Fixpoint cut (lengths : list positive) (data : list Byte.byte) : list (list Byte.byte) :=
  match data, lengths with
  | [], _ => []
  | _, [] => [data]
  | _, n :: rest => take (Pos.to_nat n) data :: cut rest (drop (Pos.to_nat n) data)
  end.

(** The chunks that [response.iter_content(chunk_size)] yields: the body in
    the pieces that the library hands over for that size.  No piece is
    empty; a piece need not have [chunk_size] bytes. *)
Definition iter_content (chunk_size : N) (r : response) : list (list Byte.byte) :=
  cut (piece_lengths r chunk_size) (body r).

(** *** Numbers and their text *)

Fixpoint digits_value (acc : Z) (after_digit : bool) (s : string) : option Z :=
  match s with
  | EmptyString => if after_digit then Some acc else None
  | String c s' =>
      if PyStr.is_ascii_digit c
      then digits_value (10 * acc + (Z.of_N (PyStr.code c) - 48)) true s'
      else if Ascii.eqb c "_" && after_digit then digits_value acc false s'
      else None
  end.

(** The white space that [int] skips around the number. *)
Definition int_space (c : ascii) : bool :=
  PyStr.in_range 9 13 c || (PyStr.code c =? 32)%N
  || (PyStr.code c =? 133)%N || (PyStr.code c =? 160)%N.

(** [int(s)] for a [str]: surrounding white space, a sign, decimal digits
    with single underscores between them. *)
Definition int_of_str (s : string) : result Z :=
  let t := PyStr.rstrip_by int_space (PyStr.lstrip_by int_space s) in
  let parsed :=
    match t with
    | String "-" t' => Z.opp <$> digits_value 0 false t'
    | String "+" t' => digits_value 0 false t'
    | _ => digits_value 0 false t
    end in
  match parsed with
  | Some n => Ok n
  | None => Raise (Exn ValueError ("invalid literal for int() with base 10: " +:+ PyStr.repr s))
  end.

Fixpoint commas_rev (s : string) (k : nat) : string :=
  match s with
  | EmptyString => EmptyString
  | String c s' =>
      match k with
      | O => String "," (String c (commas_rev s' 2))
      | S k' => String c (commas_rev s' k')
      end
  end.

(** The format [{n:,}]: decimal with a comma between groups of three digits. *)
Definition format_thousands (n : N) : string :=
  String.rev (commas_rev (String.rev (pretty n)) 3).

(** ** The Fetcher: [download_image] *)

(** Lines 80-85.  [probe] is the [while] loop, run for at most [fuel] passes;
    its state is [filepath] and [counter]. *)
Fixpoint probe (fuel : nat) (exists_ : string -> bool)
    (original_filepath filepath : string) (counter : N) : option string :=
  if exists_ filepath then
    match fuel with
    | O => None
    | S k =>
        let '(name, ext) := PosixPath.splitext original_filepath in
        let filepath := name +:+ "_" +:+ pretty counter +:+ ext in
        probe k exists_ original_filepath filepath (counter + 1)
    end
  else Some filepath.

(** The loop started with [counter = 1] on the joined path.  One more pass
    than there are paths in the file system is enough for it to end. *)
Definition resolve_collision (filepath : string) : M string :=
  fun w =>
    match probe (S (size (files w) + size (dirs w))) (path_exists w) filepath filepath 1 with
    | Some free => Some (Ok free, w)
    | None => None
    end.

(** Lines 93-99: the body of the [for] loop over the chunks. *)
Fixpoint write_chunks (filepath : string) (total_size : Z)
    (chunks : list (list Byte.byte)) (downloaded : Z) : M Z :=
  match chunks with
  | [] => ret downloaded
  | chunk :: rest =>
      if bool_decide (chunk ≠ []) then
        file_write filepath chunk ;;
        let downloaded := downloaded + Z.of_nat (length chunk) in
        (if 0 <? total_size then emit (EvProgress downloaded total_size) else ret tt) ;;
        write_chunks filepath total_size rest downloaded
      else write_chunks filepath total_size rest downloaded
  end.

(** Lines 75-105: from the filename to the returned path. *)
Definition save_response (env : environ) (url download_dir content_type : string)
    (response : response) : M (option string) :=
  filename ← lift (get_valid_filename (clock env) url content_type) ;
  let filepath := PosixPath.join download_dir filename in
  filepath ← resolve_collision filepath ;
  print ("Downloading to: " +:+ filepath) ;;
  total_size ← lift (match content_length_header response with
                     | Some v => int_of_str v
                     | None => Ok 0
                     end) ;
  open_file env filepath WriteBinary ;;
  write_chunks filepath total_size (iter_content 8192 response) 0 ;;
  match stream_error response with Some e => raise e | None => ret tt end ;;
  print (String "010" "Download completed successfully!") ;;
  print ("Saved as: " +:+ PosixPath.basename filepath) ;;
  size ← getsize filepath ;
  print ("File size: " +:+ format_thousands size +:+ " bytes") ;;
  ret (Some filepath).

(** Lines 53-105: the body of the [try]. *)
Definition download_attempt (env : environ) (url download_dir : string) : M (option string) :=
  print ("Connecting to: " +:+ url) ;;
  response ← requests_get env url ;
  raise_for_status response ;;
  let content_type := PyStr.lower (default EmptyString (content_type_header response)) in
  if negb (PyStr.startswith "image/" content_type) then
    print ("Warning: Content-Type is '" +:+ content_type +:+ "' - may not be an image") ;;
    proceed ← map_result PyStr.lower (input "Do you want to continue downloading? (y/n): ") ;
    if bool_decide (proceed ≠ "y") then
      print "Download cancelled by user." ;;
      ret None
    else save_response env url download_dir content_type response
  else save_response env url download_dir content_type response.

(** Lines 107-120: the message that each [except] clause prints. *)
Definition except_clauses : list (exn_class * (exn -> string)) :=
  [ (Timeout, fun _ => "Error: Connection timed out. The server took too long to respond.");
    (ConnectionError, fun _ => "Error: Connection failed. Check your internet connection or the URL.");
    (HTTPError, fun e => "Error: HTTP error occurred - " +:+ exn_str e);
    (TooManyRedirects, fun _ => "Error: Too many redirects. The URL might be broken.");
    (RequestException, fun e => "Error: Failed to download image - " +:+ exn_str e);
    (OSError, fun e => "Error: Failed to save file - " +:+ exn_str e);
    (Exception, fun e => "Unexpected error: " +:+ exn_str e) ].

(** [download_image(url, download_dir)]: every clause prints its message and
    falls through to [return None]. *)
Definition download_image (env : environ) (url download_dir : string) : M (option string) :=
  try_except (download_attempt env url download_dir)
    (List.map (fun cl => (fst cl, fun e => print (snd cl e) ;; ret None)) except_clauses).

(** ** [create_directory] and [main] *)

Definition create_directory (env : environ) (directory_name : string) : M bool :=
  try_except
    (makedirs env directory_name ;;
     print ("Directory '" +:+ directory_name +:+ "' is ready.") ;;
     ret true)
    [ (OSError, fun e => print ("Error creating directory: " +:+ exn_str e) ;; ret false) ].

Fixpoint repeat_char (c : ascii) (n : nat) : string :=
  match n with
  | O => EmptyString
  | S k => String c (repeat_char c k)
  end.

(** The two states of the loop. *)
Inductive loop_state := Prompting | Terminated.

(** The truth value of [downloaded_file]: a path that is not empty. *)
Definition truthy (downloaded_file : option string) : bool :=
  match downloaded_file with
  | Some p => negb (String.eqb p EmptyString)
  | None => false
  end.

(** Lines 141-164: one pass of [while True].  The check mark and the cross
    of lines 156 and 158 are kept as the bytes of their UTF-8 encoding. *)
Definition loop_body (env : environ) (download_dir : string) : M loop_state :=
  print (String "010" (repeat_char "-" 30)) ;;
  url ← map_result PyStr.strip (input "Enter the image URL (or 'quit' to exit): ") ;
  if bool_decide (PyStr.lower url ∈ ["quit"; "exit"; "q"]) then
    print "Goodbye!" ;;
    ret Terminated
  else if String.eqb url EmptyString then
    print "Please enter a valid URL." ;;
    ret Prompting
  else
    downloaded_file ← download_image env url download_dir ;
    (if truthy downloaded_file
     then print "✓ Download successful!"
     else print "✗ Download failed.") ;;
    continue_download ←
      map_result PyStr.lower (input (String "010" "Download another image? (y/n): ")) ;
    if bool_decide (continue_download ≠ "y") then
      print "Goodbye!" ;;
      ret Terminated
    else ret Prompting.

(** The loop, with the environment of each pass; it runs out of fuel when the
    list does. *)
Fixpoint main_loop (envs : list environ) (download_dir : string) : M unit :=
  match envs with
  | [] => diverge
  | env :: envs' =>
      state ← loop_body env download_dir ;
      match state with
      | Terminated => ret tt
      | Prompting => main_loop envs' download_dir
      end
  end.

Definition main (env0 : environ) (envs : list environ) : M unit :=
  print (repeat_char "=" 50) ;;
  print "           IMAGE DOWNLOADER" ;;
  print (repeat_char "=" 50) ;;
  print "This script downloads images from URLs and saves them to 'Fetched_Images' directory" ;;
  print EmptyString ;;
  let download_dir := "Fetched_Images" in
  created ← create_directory env0 download_dir ;
  if negb created then
    print "Cannot proceed without download directory." ;;
    ret tt
  else main_loop envs download_dir.

(** ** Notions used in the statements *)

(** The set [[A-Za-z0-9_.-]]. *)
Definition in_ascii_safe_class (c : ascii) : bool :=
  PyStr.is_ascii_alpha c || PyStr.is_ascii_digit c
  || Ascii.eqb c "_" || Ascii.eqb c "." || Ascii.eqb c "-".

Definition is_ascii (c : ascii) : bool := (PyStr.code c <? 128)%N.

(** The final segment of a path: what follows its last [/]. *)
Definition final_segment (p : string) : string :=
  PyStr.item_last (PyStr.split "/" p).

(** A string with any [?...] suffix stripped. *)
Definition strip_query (s : string) : string :=
  PyStr.item_first (PyStr.split "?" s).

(** The subtype of [type/subtype[;params]]: the text after the first [/],
    up to the first [;] that follows. *)
Definition subtype_of (content_type : string) : string :=
  let after_slash := PyStr.slice_from (PyStr.find "/" content_type + 1) content_type in
  PyStr.item_first (PyStr.split ";" after_slash).

(** The path with [_k] put before its extension. *)
Definition suffixed (filepath : string) (k : N) : string :=
  let '(name, ext) := PosixPath.splitext filepath in
  name +:+ "_" +:+ pretty k +:+ ext.

(** A prefix that is empty or ends with the separator. *)
Definition directory_prefix (pre : string) : Prop :=
  pre = EmptyString \/ exists q, pre = q +:+ "/".

(** The events of the [for] loop of lines 93-99. *)
Fixpoint chunk_events (filepath : string) (total_size : Z)
    (chunks : list (list Byte.byte)) (downloaded : Z) : list event :=
  match chunks with
  | [] => []
  | chunk :: rest =>
      if bool_decide (chunk ≠ []) then
        let downloaded := downloaded + Z.of_nat (length chunk) in
        EvWrite filepath chunk
        :: (if 0 <? total_size then [EvProgress downloaded total_size] else [])
        ++ chunk_events filepath total_size rest downloaded
      else chunk_events filepath total_size rest downloaded
  end.

(** The clause of [download_image] that handles an exception, and the line
    that it prints. *)
Definition handling_clause (e : exn) : option (exn_class * (exn -> string)) :=
  List.find (fun cl => issubclass (exn_cls e) (fst cl)) except_clauses.

Definition handler_message (e : exn) : string :=
  match handling_clause e with
  | Some cl => snd cl e
  | None => EmptyString
  end.


(** The state in which the loop is left by the answer to
    [Download another image?]. *)
Definition state_after_answer (answer : string) : loop_state :=
  if bool_decide (PyStr.lower answer ≠ "y") then Terminated else Prompting.

(** The parts of a trace. *)
Definition opens (t : list event) : list (string * open_mode) :=
  omap (fun e => match e with EvOpen p m => Some (p, m) | _ => None end) t.
Definition writes (t : list event) : list (string * list Byte.byte) :=
  omap (fun e => match e with EvWrite p c => Some (p, c) | _ => None end) t.
Definition gets (t : list event) : list string :=
  omap (fun e => match e with EvGet u => Some u | _ => None end) t.
Definition printed (t : list event) : list string :=
  omap (fun e => match e with EvPrint l => Some l | _ => None end) t.


(** What a computation returns and the world it leaves. *)
Definition returned {A} (m : M A) (w : world) : option (result A) :=
  fst <$> m w.
Definition world_after {A} (m : M A) (w : world) : world :=
  from_option snd w (m w).

(** Somebody else deletes a file. *)
Definition remove_file (p : string) (w : world) : world :=
  set_files (delete p (files w)) w.

(** ** Sample data *)

Definition sample_time : datetime :=
  {| year := 2024; month := 3; day := 7; hour := 9; minute := 5; second := 0 |}.

(** The letter e with acute accent, U+00E9. *)
Definition e_acute : ascii := "233".

Definition cat_url : string := "https://example.com/pics/cat.jpg".

Definition cat_response : response :=
  {| status_code := 200; reason := "OK";
     response_url := cat_url;
     content_type_header := Some "image/jpeg";
     content_length_header := Some "3";
     body := [Byte.x01; Byte.x02; Byte.x03];
     piece_lengths := fun _ => [];
     stream_error := None |}.

(** A server that answers every request with [cat_response], and a disk
    without faults. *)
Definition sample_env : environ :=
  {| clock := sample_time;
     http := fun _ => Responds cat_response;
     open_error := fun _ => None;
     makedirs_error := fun _ => None |}.

(** The directory exists and is empty; the lines given are typed at the
    console. *)
Definition typing (lines : list string) : world :=
  {| files := ∅; dirs := {["Fetched_Images"]}; stdin := lines; trace := [] |}.

Definition empty_world : world := typing [].

Definition page_response : response :=
  {| status_code := 200; reason := "OK";
     response_url := "https://example.com/index.html";
     content_type_header := Some "text/html; charset=utf-8";
     content_length_header := None;
     body := [Byte.x3c; Byte.x68; Byte.x31; Byte.x3e];
     piece_lengths := fun _ => [];
     stream_error := None |}.

(** A server that answers with a page instead of an image. *)
Definition page_env : environ :=
  {| clock := sample_time;
     http := fun _ => Responds page_response;
     open_error := fun _ => None;
     makedirs_error := fun _ => None |}.

(** A server that cannot be reached in time. *)
Definition unreachable_env : environ :=
  {| clock := sample_time;
     http := fun _ => Fails (Exn ConnectTimeout "connect timeout=15");
     open_error := fun _ => None;
     makedirs_error := fun _ => None |}.



(** A response whose [Content-Length] is not a number. *)
Definition garbled_response : response :=
  {| status_code := 200; reason := "OK";
     response_url := cat_url;
     content_type_header := Some "image/png";
     content_length_header := Some "12 bytes";
     body := [Byte.x01];
     piece_lengths := fun _ => [];
     stream_error := None |}.

Definition garbled_env : environ :=
  {| clock := sample_time;
     http := fun _ => Responds garbled_response;
     open_error := fun _ => None;
     makedirs_error := fun _ => None |}.

(** A page that is not there, asked for without the path: the library
    prepares the URL with the path [/]. *)
Definition missing_response : response :=
  {| status_code := 404; reason := "Not Found";
     response_url := "http://example.com/";
     content_type_header := Some "image/png";
     content_length_header := None;
     body := [];
     piece_lengths := fun _ => [];
     stream_error := None |}.

Definition missing_env : environ :=
  {| clock := sample_time;
     http := fun _ => Responds missing_response;
     open_error := fun _ => None;
     makedirs_error := fun _ => None |}.

(** A compressed body of three bytes: the library hands over two bytes,
    then one, when pieces of 8192 bytes are asked for. *)
Definition compressed_response : response :=
  {| status_code := 200; reason := "OK";
     response_url := cat_url;
     content_type_header := Some "image/jpeg";
     content_length_header := None;
     body := [Byte.x01; Byte.x02; Byte.x03];
     piece_lengths := fun _ => [2%positive];
     stream_error := None |}.

Definition compressed_env : environ :=
  {| clock := sample_time;
     http := fun _ => Responds compressed_response;
     open_error := fun _ => None;
     makedirs_error := fun _ => None |}.

(** A disk on which no file can be opened for writing. *)
Definition read_only_env : environ :=
  {| clock := sample_time;
     http := fun _ => Responds cat_response;
     open_error := fun _ => Some (Exn PermissionError "[Errno 13] Permission denied");
     makedirs_error := fun _ => None |}.

(** ** Notions used in the further properties *)

(** Every run of [m] takes the world to one related by [P]. *)
Definition respects (P : world -> world -> Prop) {A} (m : M A) : Prop :=
  forall w res w', m w = Some (res, w') -> P w w'.

(** Files and directories are the same. *)
Definition same_fs (w w' : world) : Prop :=
  files w' = files w /\ dirs w' = dirs w.

(** The directories are the same and every file that was there is there
    with the same content. *)
Definition keeps_existing (w w' : world) : Prop :=
  dirs w' = dirs w /\ forall p content, files w !! p = Some content -> files w' !! p = Some content.

(** Nothing but the file at [free] has changed on disk. *)
Definition touches_only (free : string) (w w' : world) : Prop :=
  dirs w' = dirs w /\ forall p, p <> free -> files w' !! p = files w !! p.

(** No line of input was read. *)
Definition same_stdin (w w' : world) : Prop := stdin w' = stdin w.

Definition prompts (t : list event) : list string :=
  omap (fun e => match e with EvPrompt p => Some p | _ => None end) t.
Definition progress (t : list event) : list (Z * Z) :=
  omap (fun e => match e with EvProgress d n => Some (d, n) | _ => None end) t.


(** A status that [raise_for_status] lets pass. *)
Definition status_passes (r : response) : Prop :=
  status_code r < 400 \/ 600 <= status_code r.

(** The content type that the Fetcher works with (line 65). *)
Definition fetched_content_type (r : response) : string :=
  PyStr.lower (default EmptyString (content_type_header r)).

(** A class of [requests.exceptions]. *)
Definition is_requests_class (c : exn_class) : bool := issubclass c RequestException.

(** A character of the time stamp: a digit or the underscore. *)
Definition is_stamp_char (c : ascii) : bool := PyStr.is_ascii_digit c || Ascii.eqb c "_".

(** * Properties *)

(** ** The model on concrete inputs *)

Example urlparse_cat :
  UrlParse.urlparse "https://example.com/pics/cat.jpg?size=large#top"
  = Ok {| UrlParse.scheme := "https"; UrlParse.netloc := "example.com";
          UrlParse.path := "/pics/cat.jpg"; UrlParse.params := "";
          UrlParse.query := "size=large"; UrlParse.fragment := "top" |}.
Proof. reflexivity. Qed.

Example urlparse_params :
  UrlParse.path <$> (match UrlParse.urlparse "  HTTP://u@h:80/a/b.c;p=1?q#f" with
                     | Ok parsed => Some parsed
                     | Raise _ => None
                     end)
  = Some "/a/b.c".
Proof. reflexivity. Qed.

Example splitext_examples :
  PosixPath.splitext "d.x/cat.tar.gz" = ("d.x/cat.tar", ".gz")
  /\ PosixPath.splitext "d.x/cat" = ("d.x/cat", "")
  /\ PosixPath.splitext "d/.bashrc" = ("d/.bashrc", "")
  /\ PosixPath.splitext "d/...a.b" = ("d/...a", ".b").
Proof. repeat split; reflexivity. Qed.

Example resolver_takes_name_from_url :
  get_valid_filename sample_time "https://example.com/pics/cat.jpg" "image/jpeg"
  = Ok "cat.jpg".
Proof. reflexivity. Qed.

Example resolver_falls_back_to_timestamp :
  get_valid_filename sample_time "https://example.com/render?id=9" "image/png"
  = Ok "image_20240307_090500.png".
Proof. reflexivity. Qed.

Example int_of_str_examples :
  int_of_str " +1_000 " = Ok 1000 /\ int_of_str "-12" = Ok (-12)
  /\ format_thousands 1234567 = "1,234,567".
Proof. repeat split; reflexivity. Qed.

(** What [int] rejects: the message shows the text as [repr] does, and the
    separators U+001C..U+001F are not skipped as white space. *)
Example int_of_str_rejects :
  int_of_str "12 bytes"
  = Raise (Exn ValueError "invalid literal for int() with base 10: '12 bytes'")
  /\ int_of_str (String "031" "5")
     = Raise (Exn ValueError "invalid literal for int() with base 10: '\x1f5'")
  /\ int_of_str (String "160" "5") = Ok 5.
Proof. repeat split; reflexivity. Qed.

(** The first end-to-end scenario: the file holds the bytes served. *)
Example download_cat :
  let fetch := download_image sample_env cat_url "Fetched_Images" in
  returned fetch empty_world = Some (Ok (Some "Fetched_Images/cat.jpg"))
  /\ files (world_after fetch empty_world) !! "Fetched_Images/cat.jpg"
     = Some (body cat_response)
  /\ printed (trace (world_after fetch empty_world))
     = ["Connecting to: https://example.com/pics/cat.jpg";
        "Downloading to: Fetched_Images/cat.jpg";
        String "010" "Download completed successfully!";
        "Saved as: cat.jpg";
        "File size: 3 bytes"].
Proof. vm_compute. done. Qed.

(** ** Strings *)

Section StringFacts.
Import PyStr.

Lemma map_chars_length f s : String.length (map_chars f s) = String.length s.
Proof. induction s as [|a s IH]; simpl; congruence. Qed.

Lemma all_chars_map_chars (p : ascii -> bool) f s :
  (forall c, p (f c) = true) -> all_chars p (map_chars f s) = true.
Proof.
  intros Hp. induction s as [|a s IH]; simpl; [done|].
  by rewrite Hp, IH.
Qed.

Lemma all_chars_impl (p q : ascii -> bool) s :
  (forall c, p c = true -> q c = true) -> all_chars p s = true -> all_chars q s = true.
Proof.
  intros Hpq. induction s as [|a s IH]; simpl; [done|].
  intros [Ha Hs]%andb_prop. rewrite (Hpq _ Ha). simpl. auto.
Qed.

Lemma all_chars_not_contains (p : ascii -> bool) c s :
  p c = false -> all_chars p s = true -> contains c s = false.
Proof.
  intros Hc. induction s as [|a s IH]; simpl; [done|].
  intros [Ha Hs]%andb_prop.
  destruct (Ascii.eqb_spec a c) as [->|_]; [congruence|auto].
Qed.

Lemma contains_take c n s : contains c s = false -> contains c (take n s) = false.
Proof.
  revert n. induction s as [|a s IH]; intros [|n]; simpl; try done.
  destruct (Ascii.eqb a c); [done|]. apply IH.
Qed.

Lemma contains_drop c n s : contains c s = false -> contains c (drop n s) = false.
Proof.
  revert n. induction s as [|a s IH]; intros [|n]; simpl; try done.
  destruct (Ascii.eqb a c); [done|]. apply IH.
Qed.

Lemma find_nonneg_iff c s : contains c s = true <-> 0 <= find c s.
Proof.
  induction s as [|a s IH]; simpl; [split; [done|lia]|].
  destruct (Ascii.eqb a c); [split; [lia|done]|].
  destruct (Z.ltb_spec (find c s) 0) as [Hlt|Hge].
  - split; [intros Hc; apply IH in Hc; lia | lia].
  - split; [lia | intros _; apply IH; lia].
Qed.

Lemma find_lower_bound c s : -1 <= find c s.
Proof.
  induction s as [|a s IH]; simpl; [lia|].
  destruct (Ascii.eqb a c); [lia|]. destruct (Z.ltb_spec (find c s) 0); lia.
Qed.

(** The text before the first occurrence of [c] does not contain [c]. *)
Lemma contains_before_find c s : contains c (slice_to (find c s) s) = false.
Proof.
  unfold slice_to. induction s as [|a s IH]; simpl; [done|].
  destruct (Ascii.eqb_spec a c) as [->|Hne]; [done|].
  destruct (Z.ltb_spec (find c s) 0); [done|].
  replace (Z.to_nat (find c s + 1)) with (S (Z.to_nat (find c s))) by lia.
  simpl. destruct (Ascii.eqb_spec a c); [done|]. apply IH.
Qed.

Lemma split_not_nil c s : split c s <> [].
Proof.
  induction s as [|a s IH]; simpl; [done|].
  destruct (Ascii.eqb a c); [done|]. by destruct (split c s).
Qed.

Lemma split_absent c s : contains c s = false -> split c s = [s].
Proof.
  induction s as [|a s IH]; simpl; [done|].
  destruct (Ascii.eqb a c); [done|]. intros H. by rewrite (IH H).
Qed.

(** [s.split(c)[0]] never contains [c]. *)
Lemma first_split_no_sep c s : contains c (item_first (split c s)) = false.
Proof.
  unfold item_first. induction s as [|a s IH]; simpl; [done|].
  destruct (Ascii.eqb_spec a c) as [->|Hne]; [done|].
  destruct (split c s) as [|w ws] eqn:E; simpl in *;
    destruct (Ascii.eqb_spec a c); done.
Qed.

Lemma first_split_absent c s : contains c s = false -> item_first (split c s) = s.
Proof. intros H. by rewrite (split_absent _ _ H). Qed.

(** [s.split(c)[0]] is empty only if [s] is empty or starts with [c]. *)
Lemma first_split_cons c a s :
  a <> c -> exists t, item_first (split c (String a s)) = String a t.
Proof.
  intros Hne. unfold item_first. simpl.
  destruct (Ascii.eqb_spec a c); [done|].
  destruct (split c s) as [|w ws]; simpl; eauto.
Qed.

Lemma first_split_app c s t :
  contains c s = false -> item_first (split c (s +:+ String c t)) = s.
Proof.
  unfold item_first. induction s as [|a s IH]; simpl.
  - by rewrite Ascii.eqb_refl.
  - destruct (Ascii.eqb a c); [done|]. intros H. specialize (IH H).
    destruct (split c (s +:+ String c t)); simpl in *; by subst.
Qed.

Lemma contains_app_sep c s t : contains c (s +:+ String c t) = true.
Proof.
  induction s as [|a s IH]; simpl; [by rewrite Ascii.eqb_refl|].
  by destruct (Ascii.eqb a c).
Qed.

Lemma split_two_pieces c s :
  contains c s = true -> exists w w' ws, split c s = w :: w' :: ws.
Proof.
  induction s as [|a s IH]; simpl; [done|].
  destruct (Ascii.eqb a c).
  - intros _. pose proof (split_not_nil c s).
    destruct (split c s) as [|w ws]; [done|]. eauto.
  - intros (w & w' & ws & ->)%IH. eauto.
Qed.

Lemma last_split_app c s t :
  contains c t = false -> item_last (split c (s +:+ String c t)) = t.
Proof.
  intros Ht. unfold item_last. induction s as [|a s IH]; simpl.
  - rewrite Ascii.eqb_refl. by rewrite (split_absent _ _ Ht).
  - destruct (split_two_pieces c _ (contains_app_sep c s t)) as (w & w' & ws & E).
    rewrite E in IH |- *. by destruct (Ascii.eqb a c).
Qed.

End StringFacts.

(** ** The URL's path and its last segment *)

Section PathFacts.
Import PyStr UrlParse PosixPath.

Lemma split_once_fst_no_sep c url : contains c (fst (split_once c url)) = false.
Proof. apply contains_before_find. Qed.

(** The path that [urlsplit] returns holds no question mark. *)
Lemma urlsplit_path_no_query url sch nl u q f :
  urlsplit url = Ok (sch, nl, u, q, f) -> contains "?" u = false.
Proof.
  unfold urlsplit. intros H.
  repeat (case_match; simplify_eq); try done;
    match goal with
    | E : split_once "?" ?x = (?u, _) |- contains "?" ?u = false =>
        pose proof (split_once_fst_no_sep "?" x) as Hs; by rewrite E in Hs
    end.
Qed.

Lemma splitparams_fst_no_query url :
  contains "?" url = false -> contains "?" (fst (splitparams url)) = false.
Proof.
  intros H. unfold splitparams.
  repeat case_match; simpl; try done; by apply contains_take.
Qed.

Lemma urlparse_path_no_query url parsed :
  urlparse url = Ok parsed -> contains "?" (path parsed) = false.
Proof.
  unfold urlparse. intros H.
  destruct (urlsplit url) as [[[[[sch nl] u] q] f]|e] eqn:E; [|done].
  apply urlsplit_path_no_query in E.
  destruct (bool_decide (sch ∈ uses_params) && contains ";" u).
  - pose proof (splitparams_fst_no_query u E) as Hs.
    destruct (splitparams u) as [u' ps]. by simplify_eq.
  - by simplify_eq.
Qed.

Lemma rfind_lower_bound c s : -1 <= rfind c s.
Proof.
  induction s as [|a s IH]; simpl; [lia|].
  destruct (Z.leb_spec 0 (rfind c s)); [lia|]. destruct (Ascii.eqb a c); lia.
Qed.

Lemma rfind_absent c s : contains c s = false <-> rfind c s = -1.
Proof.
  induction s as [|a s IH]; simpl; [done|].
  pose proof (rfind_lower_bound c s).
  destruct (Z.leb_spec 0 (rfind c s)) as [Hge|Hlt].
  - destruct (Ascii.eqb a c); split; try done; try lia.
    intros Hc. apply IH in Hc. lia.
  - destruct (Ascii.eqb a c); split; try done.
    + intros _. apply IH. lia.
Qed.

(** [os.path.basename] returns the last piece of the path cut at [/]. *)
Lemma basename_final_segment p : basename p = final_segment p.
Proof.
  unfold basename, final_segment, slice_from, item_last.
  induction p as [|a p IH]; simpl; [done|].
  pose proof (rfind_lower_bound "/" p).
  destruct (Z.leb_spec 0 (rfind "/" p)) as [Hge|Hlt].
  - replace (Z.to_nat (rfind "/" p + 1 + 1)) with (S (Z.to_nat (rfind "/" p + 1))) by lia.
    simpl. rewrite IH.
    assert (contains "/" p = true) as Hc.
    { destruct (contains "/" p) eqn:Hc; [done|]. apply rfind_absent in Hc. lia. }
    destruct (split_two_pieces _ _ Hc) as (w & w' & ws & ->).
    by destruct (Ascii.eqb a "/").
  - assert (contains "/" p = false) as Hc by (apply rfind_absent; lia).
    rewrite (split_absent _ _ Hc).
    by destruct (Ascii.eqb a "/").
Qed.

Lemma url_candidate_no_query url filename :
  url_candidate url = Ok filename -> contains "?" filename = false.
Proof.
  unfold url_candidate. destruct (urlparse url) as [parsed|e] eqn:E; [|done].
  intros [= <-]. unfold basename, slice_from.
  apply contains_drop. by eapply urlparse_path_no_query.
Qed.

End PathFacts.

(** ** The Filename Resolver *)

Section ResolverFacts.
Import PyStr.

Lemma underscore_in_safe_class : Re.in_safe_class "_" = true.
Proof. reflexivity. Qed.

Lemma sub_unsafe_in_class s : all_chars Re.in_safe_class (Re.sub_unsafe s) = true.
Proof.
  apply all_chars_map_chars. intros c.
  destruct (Re.in_safe_class c) eqn:E; [exact E | reflexivity].
Qed.

(** Among the ASCII characters the class [[\w\-_.]] is [[A-Za-z0-9_.-]]. *)
Lemma safe_class_on_ascii c :
  Re.in_safe_class c = true -> is_ascii c = true -> in_ascii_safe_class c = true.
Proof. destruct c as [[] [] [] [] [] [] [] []]; vm_compute; done. Qed.

Lemma slash_not_in_safe_class : Re.in_safe_class "/" = false.
Proof. reflexivity. Qed.

Lemma backslash_not_in_safe_class : Re.in_safe_class "\" = false.
Proof. reflexivity. Qed.

Lemma sub_unsafe_not_empty s : s <> EmptyString -> Re.sub_unsafe s <> EmptyString.
Proof. by destruct s. Qed.

Lemma timestamp_filename_head now content_type :
  exists t, timestamp_filename now content_type = String "i" t.
Proof. unfold timestamp_filename. simpl. eauto. Qed.

(** What [unsanitized_filename] returns, by the branch taken. *)
Lemma unsanitized_filename_cases now url content_type raw :
  unsanitized_filename now url content_type = Ok raw ->
  exists filename,
    url_candidate url = Ok filename /\
    ((candidate_rejected filename = true /\
      raw = item_first (split "?" (timestamp_filename now content_type)))
     \/ (candidate_rejected filename = false /\ raw = filename)).
Proof.
  unfold unsanitized_filename.
  destruct (url_candidate url) as [filename|e] eqn:E; [|done].
  intros [= <-]. exists filename. split; [done|].
  destruct (candidate_rejected filename) eqn:R; [left; done|right].
  split; [done|]. apply first_split_absent. by eapply url_candidate_no_query.
Qed.

Lemma unsanitized_filename_not_empty now url content_type raw :
  unsanitized_filename now url content_type = Ok raw -> raw <> EmptyString.
Proof.
  intros (filename & _ & [[_ ->] | [R ->]])%unsanitized_filename_cases.
  - destruct (timestamp_filename_head now content_type) as [t ->].
    destruct (first_split_cons "?" "i" t) as [t' ->]; done.
  - unfold candidate_rejected in R. by destruct filename.
Qed.

Lemma content_type_has_slash_not_empty content_type :
  contains "/" content_type = true -> String.eqb content_type EmptyString = false.
Proof. by destruct content_type. Qed.

Lemma contains_app c s t :
  contains c (s +:+ t) = contains c s || contains c t.
Proof.
  induction s as [|a s IH]; simpl; [done|]. by destruct (Ascii.eqb a c).
Qed.

Lemma append_empty_r s : s +:+ EmptyString = s.
Proof.
  induction s as [|a s IH]; [done|].
  change (String a (s +:+ EmptyString) = String a s). by rewrite IH.
Qed.

End ResolverFacts.

(** C9.  The substitution of line 45 is idempotent: applied to its own
    result it changes nothing. *)
Theorem sub_unsafe_idempotent (s : string) :
  Re.sub_unsafe (Re.sub_unsafe s) = Re.sub_unsafe s.
Proof.
  unfold Re.sub_unsafe. induction s as [|a s IH]; [reflexivity|].
  cbn [PyStr.map_chars]. rewrite IH. f_equal.
  destruct (Re.in_safe_class a) eqn:E; [by rewrite E|].
  by rewrite underscore_in_safe_class.
Qed.

(** C1, as stated, fails: the Latin-1 letter U+00E9 is a word character for
    [\w], so the filename taken from [https://example.com/caf<U+00E9>.jpg]
    keeps it, and it is outside [[A-Za-z0-9_.-]]. *)
Lemma sanitize_keeps_non_ascii_letter :
  get_valid_filename sample_time
    ("https://example.com/caf" +:+ String e_acute ".jpg") "image/jpeg"
  = Ok ("caf" +:+ String e_acute ".jpg")
  /\ Re.in_safe_class e_acute = true
  /\ in_ascii_safe_class e_acute = false
  /\ PyStr.all_chars in_ascii_safe_class ("caf" +:+ String e_acute ".jpg") = false.
Proof. vm_compute. done. Qed.

(** C1, amended.  The returned filename is the unsanitized one with every
    character outside [[\w\-_.]] replaced by an underscore: all its
    characters are word characters, hyphens, underscores or periods, and
    those of them that are ASCII are in [[A-Za-z0-9_.-]]. *)
Theorem get_valid_filename_chars (now : datetime) (url content_type f : string) :
  get_valid_filename now url content_type = Ok f ->
  (exists raw,
     unsanitized_filename now url content_type = Ok raw /\
     f = PyStr.map_chars (fun c => if Re.in_safe_class c then c else "_"%char) raw)
  /\ PyStr.all_chars Re.in_safe_class f = true
  /\ PyStr.all_chars (fun c => implb (is_ascii c) (in_ascii_safe_class c)) f = true.
Proof.
  unfold get_valid_filename.
  destruct (unsanitized_filename now url content_type) as [raw|e]; [|done].
  intros [= <-]. split; [by exists raw|].
  pose proof (sub_unsafe_in_class raw) as Hc. split; [done|].
  eapply all_chars_impl; [|exact Hc].
  intros c Hs. destruct (is_ascii c) eqn:Ha; [|done]. simpl.
  by apply safe_class_on_ascii.
Qed.

Lemma get_valid_filename_chars_witness :
  get_valid_filename sample_time "https://example.com/my cat (1).jpg" "image/jpeg"
  = Ok "my_cat__1_.jpg"
  /\ PyStr.all_chars Re.in_safe_class "my_cat__1_.jpg" = true.
Proof.
  split; [reflexivity|].
  apply (get_valid_filename_chars sample_time
           "https://example.com/my cat (1).jpg" "image/jpeg" "my_cat__1_.jpg").
  reflexivity.
Defined.

(** C7.  When the last segment of the URL's path is not empty, holds a
    period and has at most 100 characters, the candidate is not rejected and
    the filename before the substitution is that segment with any [?...]
    suffix stripped (the segment itself, since the path holds no [?]). *)
Theorem unsanitized_filename_is_last_segment
    (now : datetime) (url content_type : string) (parsed : UrlParse.ParseResult) :
  UrlParse.urlparse url = Ok parsed ->
  let segment := final_segment (UrlParse.path parsed) in
  segment <> EmptyString ->
  PyStr.contains "." segment = true ->
  (String.length segment <= 100)%nat ->
  candidate_rejected segment = false
  /\ unsanitized_filename now url content_type = Ok (strip_query segment)
  /\ strip_query segment = segment
  /\ get_valid_filename now url content_type = Ok (Re.sub_unsafe segment).
Proof.
  intros Hp segment Hne Hdot Hlen.
  assert (url_candidate url = Ok segment) as Hc.
  { unfold url_candidate. rewrite Hp. by rewrite basename_final_segment. }
  assert (candidate_rejected segment = false) as Hr.
  { unfold candidate_rejected. rewrite Hdot. simpl.
    destruct (String.eqb_spec segment EmptyString); [done|]. simpl.
    apply Nat.ltb_ge. exact Hlen. }
  assert (strip_query segment = segment) as Hq.
  { apply first_split_absent. by eapply url_candidate_no_query. }
  assert (unsanitized_filename now url content_type = Ok (strip_query segment)) as Hu.
  { unfold unsanitized_filename. rewrite Hc, Hr. done. }
  repeat split; try done.
  unfold get_valid_filename. rewrite Hu, Hq. done.
Qed.

Lemma unsanitized_filename_is_last_segment_witness :
  unsanitized_filename sample_time "https://example.com/pics/cat.jpg?size=large#top" "image/jpeg"
  = Ok "cat.jpg".
Proof.
  pose proof (unsanitized_filename_is_last_segment sample_time
    "https://example.com/pics/cat.jpg?size=large#top" "image/jpeg"
    {| UrlParse.scheme := "https"; UrlParse.netloc := "example.com";
       UrlParse.path := "/pics/cat.jpg"; UrlParse.params := "";
       UrlParse.query := "size=large"; UrlParse.fragment := "top" |}
    eq_refl) as H.
  simpl in H.
  apply H; [discriminate | reflexivity | vm_compute; lia].
Defined.

(** C8, as stated, fails: on a URL whose authority opens a square bracket
    and does not close it, [urlparse] raises [ValueError] and no filename is
    returned. *)
Lemma get_valid_filename_raises_on_bad_authority :
  get_valid_filename sample_time "http://[::1/cat.jpg" "image/jpeg"
  = Raise (Exn ValueError "Invalid IPv6 URL").
Proof. reflexivity. Qed.

(** C8, amended.  For every URL and content type the Filename Resolver
    either returns a filename that is not empty, or raises the very
    exception that [urlparse] raises on that URL. *)
Theorem get_valid_filename_not_empty (now : datetime) (url content_type : string) :
  match get_valid_filename now url content_type with
  | Ok f => f <> EmptyString /\ exists parsed, UrlParse.urlparse url = Ok parsed
  | Raise e => UrlParse.urlparse url = Raise e
  end.
Proof.
  unfold get_valid_filename.
  destruct (unsanitized_filename now url content_type) as [raw|e] eqn:E.
  - split.
    + apply sub_unsafe_not_empty. by eapply unsanitized_filename_not_empty.
    + unfold unsanitized_filename, url_candidate in E.
      destruct (UrlParse.urlparse url); [eauto|done].
  - unfold unsanitized_filename, url_candidate in E.
    destruct (UrlParse.urlparse url); [done|congruence].
Qed.

(** C4, as stated, fails at two kinds of content type.  White space around
    the subtype is stripped: for [text/html ; charset=utf-8] the text
    between [/] and [;] is [html] followed by a space, the extension is
    [html].  And the extension is cut after the last [/], not the first: a
    parameter that holds a [/] replaces the subtype. *)
Lemma content_type_extension_differs_from_subtype :
  (subtype_of "text/html ; charset=utf-8" = "html "
   /\ content_type_extension "text/html ; charset=utf-8" = "html")
  /\ (subtype_of "application/ld+json; profile=http://www.w3.org/ns/json-ld" = "ld+json"
      /\ content_type_extension "application/ld+json; profile=http://www.w3.org/ns/json-ld"
         = "json-ld").
Proof. vm_compute. done. Qed.

(** C4, amended.  For a content type [type/subtype] or
    [type/subtype;params], where no [/] occurs in the subtype or in the
    parameters, the extension is the subtype with white space stripped at
    both ends, its letters as they are in the argument.  For a content type
    without [/] (the empty one among them) the extension is [bin]. *)
Theorem content_type_extension_spec (type subtype parameters content_type : string) :
  (PyStr.contains "/" subtype = false ->
   PyStr.contains ";" subtype = false ->
   PyStr.contains "/" parameters = false ->
   (parameters = EmptyString \/ exists rest, parameters = String ";" rest) ->
   content_type_extension (type +:+ "/" +:+ subtype +:+ parameters) = PyStr.strip subtype)
  /\ (PyStr.contains "/" content_type = false ->
      content_type_extension content_type = "bin").
Proof.
  split.
  - intros Hs1 Hs2 Hp Hform. unfold content_type_extension.
    change (type +:+ "/" +:+ subtype +:+ parameters)
      with (type +:+ String "/" (subtype +:+ parameters)).
    rewrite contains_app_sep.
    rewrite (content_type_has_slash_not_empty _ (contains_app_sep "/" type _)).
    simpl negb. simpl andb. cbv iota.
    rewrite last_split_app by (by rewrite contains_app, Hs1, Hp).
    f_equal. destruct Hform as [->|[rest ->]].
    + rewrite append_empty_r. by apply first_split_absent.
    + by apply first_split_app.
  - intros Hc. unfold content_type_extension. rewrite Hc.
    by rewrite andb_false_r.
Qed.

Lemma content_type_extension_spec_witness :
  content_type_extension "image/SVG+xml ; charset=utf-8" = "SVG+xml"
  /\ content_type_extension "" = "bin".
Proof.
  destruct (content_type_extension_spec "image" "SVG+xml " "; charset=utf-8" "")
    as [Hsub Hbin].
  split.
  - apply Hsub; [reflexivity | reflexivity | reflexivity | right; eauto].
  - apply Hbin. reflexivity.
Defined.

(** ** The collision loop *)

Section ProbeFacts.

Lemma append_cons a s t : String a s +:+ t = String a (s +:+ t).
Proof. reflexivity. Qed.

Lemma append_length s t :
  String.length (s +:+ t) = (String.length s + String.length t)%nat.
Proof.
  induction s as [|a s IH]; [reflexivity|].
  rewrite append_cons. cbn [String.length]. by rewrite IH.
Qed.

Lemma append_cancel_r a b t : a +:+ t = b +:+ t -> a = b.
Proof.
  revert b. induction a as [|x a IH]; intros [|y b] H.
  - reflexivity.
  - apply (f_equal String.length) in H. rewrite !append_length in H.
    cbn [String.length] in H. lia.
  - apply (f_equal String.length) in H. rewrite !append_length in H.
    cbn [String.length] in H. lia.
  - rewrite !append_cons in H. injection H as -> H. f_equal. by apply IH.
Qed.

(** Different numbers give different suffixed paths. *)
Lemma suffixed_inj filepath j k : suffixed filepath j = suffixed filepath k -> j = k.
Proof.
  unfold suffixed. destruct (PosixPath.splitext filepath) as [name ext].
  intros H. apply String.app_inj in H. apply String.app_inj in H.
  apply append_cancel_r in H. by apply pretty_N_inj in H.
Qed.

Variable exists_ : string -> bool.
Variable original : string.

Lemma probe_step fuel filepath counter :
  probe (S fuel) exists_ original filepath counter =
  if exists_ filepath
  then probe fuel exists_ original (suffixed original counter) (counter + 1)
  else Some filepath.
Proof.
  cbn [probe]. unfold suffixed.
  by destruct (PosixPath.splitext original).
Qed.

Lemma probe_zero filepath counter :
  probe 0 exists_ original filepath counter =
  if exists_ filepath then None else Some filepath.
Proof. reflexivity. Qed.

(** The path that the loop returns is free; it is the path the loop
    started on, or the first free one among the suffixed paths from
    [counter] on. *)
Lemma probe_some fuel filepath counter free :
  probe fuel exists_ original filepath counter = Some free ->
  exists_ free = false /\
  ((exists_ filepath = false /\ free = filepath) \/
   (exists_ filepath = true /\
    exists k, (counter <= k)%N /\ free = suffixed original k /\
      forall j, (counter <= j < k)%N -> exists_ (suffixed original j) = true)).
Proof.
  revert filepath counter. induction fuel as [|fuel IH]; intros filepath counter.
  - rewrite probe_zero. destruct (exists_ filepath) eqn:E; [done|].
    intros [= <-]. auto.
  - rewrite probe_step. destruct (exists_ filepath) eqn:E.
    + intros [Hfree [[Hn ->]|[Hx (k & Hk & -> & Hbelow)]]]%IH.
      * split; [done|]. right. split; [done|].
        exists counter. split; [lia|]. split; [done|]. intros j Hj. lia.
      * split; [done|]. right. split; [done|].
        exists k. split; [lia|]. split; [done|]. intros j Hj.
        destruct (decide (j = counter)) as [->|Hne]; [done|].
        apply Hbelow. lia.
    + intros [= <-]. auto.
Qed.

(** When the fuel runs out, every path tried exists. *)
Lemma probe_none fuel filepath counter :
  probe fuel exists_ original filepath counter = None ->
  forall j, (counter <= j < counter + N.of_nat fuel)%N ->
    exists_ (suffixed original j) = true.
Proof.
  revert filepath counter. induction fuel as [|fuel IH]; intros filepath counter.
  - intros _ j Hj. lia.
  - rewrite probe_step. destruct (exists_ filepath) eqn:E; [|done].
    intros Hn j Hj.
    destruct (decide (j = counter)) as [->|Hne].
    + destruct fuel as [|fuel'].
      * rewrite probe_zero in Hn. by destruct (exists_ (suffixed original counter)).
      * rewrite probe_step in Hn. by destruct (exists_ (suffixed original counter)).
    + eapply IH; [exact Hn|]. lia.
Qed.

End ProbeFacts.

Section CollisionFacts.

Lemma path_exists_elem w p :
  path_exists w p = true <-> p ∈ dom (files w) ∪ dirs w.
Proof.
  unfold path_exists. rewrite orb_true_iff, !bool_decide_eq_true. set_solver.
Qed.

(** There are no more existing paths than files and directories. *)
Lemma existing_paths_bound w (l : list string) :
  NoDup l -> (forall p, p ∈ l -> path_exists w p = true) ->
  (length l <= size (files w) + size (dirs w))%nat.
Proof.
  intros Hnd Hall.
  rewrite <- (size_list_to_set (C := gset string) l Hnd).
  transitivity (size (dom (files w) ∪ dirs w)).
  - apply subseteq_size. intros p Hp. apply path_exists_elem, Hall.
    by apply elem_of_list_to_set in Hp.
  - rewrite size_union_alt, size_dom.
    apply Nat.add_le_mono_l, subseteq_size, subseteq_difference_l. done.
Qed.

(** The loop ends within the fuel it is given. *)
Lemma probe_terminates w filepath :
  probe (S (size (files w) + size (dirs w))) (path_exists w) filepath filepath 1 <> None.
Proof.
  intros Hn. pose proof (probe_none _ _ _ _ _ Hn) as Hall.
  set (n := (size (files w) + size (dirs w))%nat) in *.
  set (l := (fun j => suffixed filepath (N.of_nat j)) <$> seq 1 (S n)).
  assert (length l <= n)%nat as Hlen.
  { apply existing_paths_bound.
    - apply NoDup_fmap_2_strong; [|apply NoDup_seq].
      intros i j _ _ H%suffixed_inj. lia.
    - intros p (j & -> & Hj)%list_elem_of_fmap.
      apply elem_of_seq in Hj. apply Hall. lia. }
  unfold l in Hlen. rewrite length_fmap, length_seq in Hlen. lia.
Qed.

Lemma resolve_collision_run w filepath :
  exists free,
    resolve_collision filepath w = Some (Ok free, w) /\
    probe (S (size (files w) + size (dirs w))) (path_exists w) filepath filepath 1
    = Some free.
Proof.
  unfold resolve_collision. pose proof (probe_terminates w filepath) as Ht.
  destruct (probe _ _ _ _ _) as [free|]; [eauto|done].
Qed.

End CollisionFacts.

(** C3, as stated, fails in its last part: a name that was used and then
    freed is used again.  Three downloads of the same URL into a directory
    create [cat.jpg], [cat_1.jpg] and [cat_2.jpg]; once [cat_1.jpg] is
    deleted, the fourth download is stored as [cat_1.jpg] again. *)
Lemma freed_name_is_reused :
  let fetch := download_image sample_env cat_url "Fetched_Images" in
  let w1 := world_after fetch empty_world in
  let w2 := world_after fetch w1 in
  let w3 := world_after fetch w2 in
  returned fetch empty_world = Some (Ok (Some "Fetched_Images/cat.jpg"))
  /\ returned fetch w1 = Some (Ok (Some "Fetched_Images/cat_1.jpg"))
  /\ returned fetch w2 = Some (Ok (Some "Fetched_Images/cat_2.jpg"))
  /\ returned fetch (remove_file "Fetched_Images/cat_1.jpg" w3)
     = Some (Ok (Some "Fetched_Images/cat_1.jpg")).
Proof. vm_compute. done. Qed.

(** C3, amended.  The collision loop ends and leaves the world as it is.
    When the joined path is free it is chosen; otherwise the chosen path is
    the joined path with [_k] before its extension, for the least [k >= 1]
    whose path is free at that moment (so a freed name is taken again). *)
Theorem resolve_collision_first_free (w : world) (filepath : string) :
  exists free,
    resolve_collision filepath w = Some (Ok free, w)
    /\ path_exists w free = false
    /\ ((path_exists w filepath = false /\ free = filepath)
        \/ (path_exists w filepath = true
            /\ exists k, (1 <= k)%N
                 /\ free = suffixed filepath k
                 /\ forall j, (1 <= j < k)%N -> path_exists w (suffixed filepath j) = true)).
Proof.
  destruct (resolve_collision_run w filepath) as (free & Hrun & Hprobe).
  exists free. split; [done|]. by apply probe_some in Hprobe.
Qed.

(** ** Paths below a directory *)

Section JoinFacts.
Import PyStr PosixPath.

Lemma append_assoc s t u : (s +:+ t) +:+ u = s +:+ (t +:+ u).
Proof.
  induction s as [|a s IH]; [reflexivity|].
  rewrite !append_cons. by rewrite IH.
Qed.

Lemma rfind_upper_bound c s : rfind c s < Z.of_nat (String.length s).
Proof.
  induction s as [|a s IH]; cbn [rfind String.length]; [lia|].
  destruct (Z.leb_spec 0 (rfind c s)); [lia|]. destruct (Ascii.eqb a c); lia.
Qed.

Lemma rfind_app c s t :
  rfind c (s +:+ t) =
  if 0 <=? rfind c t then Z.of_nat (String.length s) + rfind c t else rfind c s.
Proof.
  pose proof (rfind_lower_bound c t) as Ht.
  induction s as [|a s IH].
  - change (EmptyString +:+ t) with t. cbn [rfind String.length].
    destruct (Z.leb_spec 0 (rfind c t)); lia.
  - rewrite append_cons. cbn [rfind String.length]. rewrite IH.
    pose proof (rfind_lower_bound c s) as Hs.
    destruct (Z.leb_spec 0 (rfind c t)).
    + destruct (Z.leb_spec 0 (Z.of_nat (String.length s) + rfind c t)); lia.
    + reflexivity.
Qed.

Lemma take_app_length s t j :
  take (String.length s + j) (s +:+ t) = s +:+ take j t.
Proof.
  induction s as [|a s IH]; [reflexivity|].
  rewrite !append_cons. cbn [String.length Nat.add take]. by rewrite IH.
Qed.

Lemma drop_app_length s t j :
  drop (String.length s + j) (s +:+ t) = drop j t.
Proof.
  induction s as [|a s IH]; [reflexivity|].
  rewrite append_cons. cbn [String.length Nat.add drop]. exact IH.
Qed.

Lemma drop_zero s : drop 0 s = s.
Proof. by destruct s. Qed.

Lemma rfind_sep_directory_prefix pre :
  directory_prefix pre -> rfind "/" pre = Z.of_nat (String.length pre) - 1.
Proof.
  intros [->|[q ->]]; [reflexivity|].
  rewrite rfind_app, append_length. cbn [rfind String.length Ascii.eqb].
  change (0 <=? -1) with false. cbn. lia.
Qed.

Lemma rfind_sep_prefixed pre f :
  directory_prefix pre -> contains "/" f = false ->
  rfind "/" (pre +:+ f) = Z.of_nat (String.length pre) - 1.
Proof.
  intros Hpre Hf. apply rfind_absent in Hf.
  rewrite rfind_app, Hf. change (0 <=? -1) with false. cbv iota.
  by apply rfind_sep_directory_prefix.
Qed.

(** The last component of a prefixed name is the name. *)
Lemma basename_prefixed pre f :
  directory_prefix pre -> contains "/" f = false -> basename (pre +:+ f) = f.
Proof.
  intros Hpre Hf. unfold basename, slice_from.
  rewrite (rfind_sep_prefixed _ _ Hpre Hf).
  replace (Z.to_nat (Z.of_nat (String.length pre) - 1 + 1))
    with (String.length pre + 0)%nat by lia.
  rewrite drop_app_length. apply drop_zero.
Qed.

(** [splitext] splits inside the last component. *)
Lemma splitext_prefixed pre f :
  directory_prefix pre -> contains "/" f = false ->
  splitext (pre +:+ f) = (pre +:+ fst (splitext f), snd (splitext f)).
Proof.
  intros Hpre Hf. unfold splitext.
  rewrite (rfind_sep_prefixed _ _ Hpre Hf).
  pose proof Hf as Hf'. apply rfind_absent in Hf'. rewrite Hf'.
  rewrite (rfind_app "." pre f).
  pose proof (rfind_lower_bound "." f) as Hlo.
  pose proof (rfind_upper_bound "." pre) as Hup.
  destruct (Z.leb_spec 0 (rfind "." f)) as [Hdot|Hdot].
  - set (j := rfind "." f) in *.
    replace (Z.of_nat (String.length pre) - 1 <? Z.of_nat (String.length pre) + j)
      with true by (symmetry; apply Z.ltb_lt; lia).
    replace (-1 <? j) with true by (symmetry; apply Z.ltb_lt; lia).
    unfold slice_to, slice_from.
    replace (Z.to_nat (Z.of_nat (String.length pre) - 1 + 1))
      with (String.length pre + 0)%nat by lia.
    rewrite drop_app_length, drop_zero.
    replace (Z.to_nat (-1 + 1)) with 0%nat by lia. rewrite drop_zero.
    replace (Z.to_nat (Z.of_nat (String.length pre) + j - (Z.of_nat (String.length pre) - 1 + 1)))
      with (Z.to_nat j) by lia.
    replace (Z.to_nat (j - (-1 + 1))) with (Z.to_nat j) by lia.
    replace (Z.to_nat (Z.of_nat (String.length pre) + j))
      with (String.length pre + Z.to_nat j)%nat by lia.
    rewrite take_app_length, drop_app_length.
    by destruct (all_chars (Ascii.eqb ".") (take (Z.to_nat j) f)).
  - replace (Z.of_nat (String.length pre) - 1 <? rfind "." pre)
      with false by (symmetry; apply Z.ltb_ge; lia).
    replace (-1 <? rfind "." f) with false by (symmetry; apply Z.ltb_ge; lia).
    reflexivity.
Qed.

Lemma suffixed_prefixed pre f k :
  directory_prefix pre -> contains "/" f = false ->
  suffixed (pre +:+ f) k = pre +:+ suffixed f k.
Proof.
  intros Hpre Hf. unfold suffixed. rewrite (splitext_prefixed _ _ Hpre Hf).
  destruct (splitext f) as [name ext]. cbn [fst snd]. by rewrite append_assoc.
Qed.

Lemma startswith_sep f : contains "/" f = false -> startswith "/" f = false.
Proof.
  destruct f as [|a f]; [reflexivity|]. cbn [contains].
  destruct (Ascii.eqb_spec a "/") as [->|Hne]; [done|]. intros _.
  unfold startswith. cbn [String.prefix].
  destruct (ascii_dec "/" a) as [E|E]; [by subst|done].
Qed.

Lemma endswith_char_split c s :
  endswith_char c s = true -> exists q, s = q +:+ String c EmptyString.
Proof.
  induction s as [|a s IH]; [done|]. cbn [endswith_char].
  destruct s as [|b s].
  - intros ->%Ascii.eqb_eq. by exists EmptyString.
  - intros [q ->]%IH. by exists (String a q).
Qed.

(** [os.path.join] puts one and the same prefix before every name that
    holds no separator. *)
Lemma join_prefix download_dir :
  exists pre, directory_prefix pre /\
    forall f, contains "/" f = false -> join download_dir f = pre +:+ f.
Proof.
  destruct (String.eqb download_dir EmptyString || endswith_char "/" download_dir) eqn:E.
  - exists download_dir. split.
    + apply orb_true_iff in E as [->%String.eqb_eq|[q ->]%endswith_char_split];
        [by left | right; by exists q].
    + intros f Hf. unfold join. by rewrite (startswith_sep _ Hf), E.
  - exists (download_dir +:+ "/"). split; [right; by exists download_dir|].
    intros f Hf. unfold join. rewrite (startswith_sep _ Hf), E.
    by rewrite append_assoc.
Qed.

Lemma pretty_N_go_digits x s :
  all_chars is_ascii_digit s = true ->
  all_chars is_ascii_digit (pretty_N_go x s) = true.
Proof.
  revert s. induction (N.lt_wf_0 x) as [x _ IH]. intros s Hs.
  destruct (decide (x = 0%N)) as [->|Hx]; [by rewrite pretty_N_go_0|].
  rewrite pretty_N_go_step by lia.
  apply IH; [apply N.div_lt; lia|].
  cbn [all_chars]. rewrite Hs, andb_true_r.
  unfold pretty_N_char. by repeat case_match.
Qed.

(** A decimal number is written with digits only. *)
Lemma pretty_N_digits (k : N) : all_chars is_ascii_digit (pretty k) = true.
Proof.
  unfold pretty, pretty_N. case_decide; [reflexivity|].
  by apply pretty_N_go_digits.
Qed.

Lemma splitext_no_char c f :
  contains c f = false ->
  contains c (fst (splitext f)) = false /\ contains c (snd (splitext f)) = false.
Proof.
  intros Hf. unfold splitext, slice_to, slice_from.
  repeat case_match; cbn [fst snd]; split;
    auto using contains_take, contains_drop.
Qed.

(** A suffixed name holds no character that is neither in the name nor an
    underscore nor a digit. *)
Lemma suffixed_no_char c f k :
  contains c f = false -> Ascii.eqb "_" c = false -> is_ascii_digit c = false ->
  contains c (suffixed f k) = false.
Proof.
  intros Hf Hu Hd. unfold suffixed.
  destruct (splitext_no_char c f Hf) as [Hn He].
  destruct (splitext f) as [name ext]. cbn [fst snd] in *.
  rewrite !contains_app, Hn, He. cbn [contains]. rewrite Hu.
  by rewrite (all_chars_not_contains _ _ _ Hd (pretty_N_digits k)).
Qed.

End JoinFacts.

(** ** Runs of the stateful functions *)

Section RunFacts.

Lemma world_eq (w1 w2 : world) :
  files w1 = files w2 -> dirs w1 = dirs w2 -> stdin w1 = stdin w2 ->
  trace w1 = trace w2 -> w1 = w2.
Proof. destruct w1, w2. cbn. by intros -> -> -> ->. Qed.

Lemma bind_ok {A B} (m : M A) (k : A -> M B) w b w' :
  bind m k w = Some (Ok b, w') ->
  exists a w1, m w = Some (Ok a, w1) /\ k a w1 = Some (Ok b, w').
Proof.
  unfold bind. destruct (m w) as [[[a|e] w1]|]; [eauto|done|done].
Qed.

Lemma bind_run_ok {A B} (m : M A) (k : A -> M B) w a w1 :
  m w = Some (Ok a, w1) -> bind m k w = k a w1.
Proof. unfold bind. by intros ->. Qed.

Lemma bind_run_raise {A B} (m : M A) (k : A -> M B) w e w1 :
  m w = Some (Raise e, w1) -> bind m k w = Some (Raise e, w1).
Proof. unfold bind. by intros ->. Qed.

Lemma print_run line w : print line w = Some (Ok tt, log (EvPrint line) w).
Proof. reflexivity. Qed.

Lemma emit_run e w : emit e w = Some (Ok tt, log e w).
Proof. reflexivity. Qed.

Lemma input_run prompt w :
  input prompt w =
  match stdin w with
  | [] => Some (Raise (Exn EOFError "EOF when reading a line"), log (EvPrompt prompt) w)
  | line :: rest => Some (Ok line, set_stdin rest (log (EvPrompt prompt) w))
  end.
Proof. reflexivity. Qed.

Lemma lift_ok {A} (r : result A) w a w1 :
  lift r w = Some (Ok a, w1) -> r = Ok a /\ w1 = w.
Proof. destruct r; unfold lift, ret, raise; intros; by simplify_eq. Qed.

Lemma open_file_ok env p mode w u w1 :
  open_file env p mode w = Some (Ok u, w1) ->
  open_error env p = None
  /\ (PosixPath.basename p ∉ ["."; ".."])
  /\ (p ∉ dirs w)
  /\ w1 = set_files (<[p := []]> (files w)) (log (EvOpen p mode) w).
Proof.
  unfold open_file. rewrite (bind_run_ok _ _ _ _ _ (emit_run _ _)).
  cbn [dirs files log].
  destruct (open_error env p); [done|].
  destruct (bool_decide (PosixPath.basename p ∈ ["."; ".."])) eqn:Hb; [done|].
  destruct (bool_decide (p ∈ dirs w)) eqn:Hd; [done|].
  apply bool_decide_eq_false in Hb, Hd. cbn [orb].
  destruct mode, (files w !! p); intros; by simplify_eq.
Qed.

Lemma getsize_ok p w n w1 :
  getsize p w = Some (Ok n, w1) ->
  w1 = w /\ exists content, files w !! p = Some content.
Proof.
  unfold getsize. destruct (files w !! p); intros; simplify_eq; eauto.
Qed.

(** The [for] loop writes the chunks one after the other and does not
    fail. *)
Lemma write_chunks_run filepath total_size chunks downloaded w old :
  files w !! filepath = Some old ->
  exists n,
    write_chunks filepath total_size chunks downloaded w =
    Some (Ok n,
          {| files := <[filepath := old ++ concat chunks]> (files w);
             dirs := dirs w; stdin := stdin w;
             trace := trace w ++ chunk_events filepath total_size chunks downloaded |}).
Proof.
  revert downloaded w old. induction chunks as [|chunk rest IH]; intros downloaded w old Hold.
  - exists downloaded. cbn [write_chunks chunk_events concat]. unfold ret.
    do 2 f_equal. apply world_eq; cbn; try done.
    + rewrite app_nil_r. by rewrite insert_id.
    + by rewrite app_nil_r.
  - cbn [write_chunks chunk_events concat].
    destruct (bool_decide (chunk ≠ [])) eqn:Hc.
    + set (w1 := set_files (<[filepath := old ++ chunk]> (files w))
                   (log (EvWrite filepath chunk) w)).
      assert (file_write filepath chunk w = Some (Ok tt, w1)) as Hw.
      { unfold file_write. rewrite (bind_run_ok _ _ _ _ _ (emit_run _ _)).
        cbn [files log]. by rewrite Hold. }
      rewrite (bind_run_ok _ _ _ _ _ Hw).
      destruct (0 <? total_size).
      * rewrite (bind_run_ok _ _ _ _ _ (emit_run _ _)).
        destruct (IH (downloaded + Z.of_nat (length chunk))
                    (log (EvProgress (downloaded + Z.of_nat (length chunk)) total_size) w1)
                    (old ++ chunk)) as [n ->].
        { cbn. apply lookup_insert_eq. }
        exists n. do 2 f_equal. apply world_eq; cbn; try done.
        -- by rewrite insert_insert_eq, app_assoc.
        -- by rewrite <- !app_assoc.
      * rewrite (bind_run_ok _ _ _ _ _ (eq_refl : ret tt w1 = Some (Ok tt, w1))).
        destruct (IH (downloaded + Z.of_nat (length chunk)) w1 (old ++ chunk)) as [n ->].
        { cbn. apply lookup_insert_eq. }
        exists n. do 2 f_equal. apply world_eq; cbn; try done.
        -- by rewrite insert_insert_eq, app_assoc.
        -- by rewrite <- !app_assoc.
    + apply bool_decide_eq_false in Hc.
      assert (chunk = []) as -> by (by destruct chunk; [|exfalso; apply Hc]).
      destruct (IH downloaded w old Hold) as [n ->]. by exists n.
Qed.

End RunFacts.

(** ** The chunks of the body *)

Section ChunkFacts.

Lemma cut_concat lengths (data : list Byte.byte) : concat (cut lengths data) = data.
Proof.
  revert data. induction lengths as [|n rest IH]; intros [|b data]; try done.
  - cbn. by rewrite app_nil_r.
  - cbn [cut concat]. by rewrite IH, take_drop.
Qed.

Lemma cut_nonempty lengths (data : list Byte.byte) :
  Forall (fun piece => (0 < length piece)%nat) (cut lengths data).
Proof.
  revert data. induction lengths as [|n rest IH]; intros [|b data];
    cbn [cut]; try by constructor.
  - constructor; [cbn; lia|constructor].
  - constructor; [|apply IH].
    rewrite length_take. cbn [length]. lia.
Qed.

Lemma chunk_events_nonempty filepath total_size chunks downloaded :
  Forall (fun chunk => (0 < length chunk)%nat) chunks ->
  writes (chunk_events filepath total_size chunks downloaded)
  = (fun chunk => (filepath, chunk)) <$> chunks
  /\ opens (chunk_events filepath total_size chunks downloaded) = []
  /\ gets (chunk_events filepath total_size chunks downloaded) = [].
Proof.
  intros Hall. revert downloaded.
  induction Hall as [|chunk rest Hc _ IH]; intros downloaded; [done|].
  cbn [chunk_events]. rewrite bool_decide_true by (intros ->; cbn in Hc; lia).
  destruct (IH (downloaded + Z.of_nat (length chunk))) as (Hw & Ho & Hg).
  unfold writes, opens, gets in *.
  destruct (0 <? total_size); cbn; rewrite ?Hw, ?Ho, ?Hg; done.
Qed.

(** The pieces are the body, and none is empty. *)
Lemma iter_content_pieces (chunk_size : N) (r : response) :
  concat (iter_content chunk_size r) = body r
  /\ Forall (fun chunk => (0 < length chunk)%nat) (iter_content chunk_size r).
Proof. unfold iter_content. split; [apply cut_concat|apply cut_nonempty]. Qed.

End ChunkFacts.

(** ** A download that succeeds *)

Section SuccessFacts.

Lemma omap_snoc {A B} (f : A -> option B) (l : list A) (x : A) :
  omap f (l ++ [x]) = omap f l ++ from_option (fun y => [y]) [] (f x).
Proof.
  induction l as [|a l IH]; cbn.
  - by destruct (f x).
  - destruct (f a); cbn; by rewrite IH.
Qed.

(** What [save_response] has done when it returns. *)
Lemma save_response_ok env url download_dir content_type r w res w' :
  save_response env url download_dir content_type r w = Some (Ok res, w') ->
  exists filename free total_size,
    res = Some free
    /\ get_valid_filename (clock env) url content_type = Ok filename
    /\ resolve_collision (PosixPath.join download_dir filename) w = Some (Ok free, w)
    /\ open_error env free = None
    /\ (PosixPath.basename free ∉ ["."; ".."])
    /\ stream_error r = None
    /\ files w' = <[free := body r]> (files w)
    /\ dirs w' = dirs w
    /\ stdin w' = stdin w
    /\ trace w' =
       trace w
       ++ [EvPrint ("Downloading to: " +:+ free); EvOpen free WriteBinary]
       ++ chunk_events free total_size (iter_content 8192 r) 0
       ++ [EvPrint (String "010" "Download completed successfully!");
           EvPrint ("Saved as: " +:+ PosixPath.basename free);
           EvPrint ("File size: "
                    +:+ format_thousands (N.of_nat (length (body r))) +:+ " bytes")].
Proof.
  unfold save_response. intros H.
  apply bind_ok in H as (filename & w1 & Hf & H). apply lift_ok in Hf as [Hf ->].
  apply bind_ok in H as (free & w1 & Hr & H).
  destruct (resolve_collision_run w (PosixPath.join download_dir filename))
    as (free' & Hrun & _).
  rewrite Hrun in Hr. injection Hr as <- <-.
  apply bind_ok in H as ([] & w1 & Hp & H). rewrite print_run in Hp. injection Hp as <-.
  apply bind_ok in H as (total_size & w1 & Ht & H). apply lift_ok in Ht as [_ ->].
  apply bind_ok in H as ([] & w1 & Ho & H).
  apply open_file_ok in Ho as (Herr & Hbase & _ & ->).
  apply bind_ok in H as (n & w2 & Hw & H).
  edestruct (write_chunks_run free' total_size (iter_content 8192 r) 0) as [n' Hrunw];
    [|rewrite Hrunw in Hw].
  { cbn. apply lookup_insert_eq. }
  injection Hw as _ <-.
  apply bind_ok in H as ([] & w2 & Hs & H).
  destruct (stream_error r) as [e|]; [done|]. injection Hs as <-.
  apply bind_ok in H as ([] & w2 & Hp & H). rewrite print_run in Hp. injection Hp as <-.
  apply bind_ok in H as ([] & w2 & Hp & H). rewrite print_run in Hp. injection Hp as <-.
  apply bind_ok in H as (size & w2 & Hg & H).
  unfold getsize in Hg. cbn [files log set_files] in Hg.
  rewrite lookup_insert_eq in Hg. injection Hg as <- <-.
  apply bind_ok in H as ([] & w2 & Hp & H). rewrite print_run in Hp. injection Hp as <-.
  injection H as <- <-.
  destruct (iter_content_pieces 8192 r) as (Hconcat & _).
  exists filename, free', total_size. cbn.
  rewrite insert_insert_eq, Hconcat, <- !app_assoc. cbn.
  repeat split; done.
Qed.

(** What [download_attempt] has done when it returns a path. *)
Lemma download_attempt_ok env url download_dir w free w' :
  download_attempt env url download_dir w = Some (Ok (Some free), w') ->
  exists r content_type w0,
    http env url = Responds r
    /\ content_type = PyStr.lower (default EmptyString (content_type_header r))
    /\ save_response env url download_dir content_type r w0 = Some (Ok (Some free), w')
    /\ files w0 = files w /\ dirs w0 = dirs w
    /\ opens (trace w0) = opens (trace w)
    /\ writes (trace w0) = writes (trace w)
    /\ gets (trace w0) = gets (trace w) ++ [url].
Proof.
  unfold download_attempt. intros H.
  apply bind_ok in H as ([] & w1 & Hp & H). rewrite print_run in Hp. injection Hp as <-.
  apply bind_ok in H as (r & w1 & Hg & H).
  unfold requests_get in Hg. rewrite (bind_run_ok _ _ _ _ _ (emit_run _ _)) in Hg.
  destruct (http env url) as [e|r'] eqn:Hhttp; [done|]. injection Hg as <- <-.
  apply bind_ok in H as ([] & w1 & Hs & H).
  assert (w1 = log (EvGet url) (log (EvPrint ("Connecting to: " +:+ url)) w)) as ->.
  { unfold raise_for_status, raise, ret in Hs. repeat case_match; by simplify_eq. }
  clear Hs. exists r', (PyStr.lower (default EmptyString (content_type_header r'))).
  destruct (negb (PyStr.startswith "image/" _)).
  - apply bind_ok in H as ([] & w1 & Hp & H). rewrite print_run in Hp. injection Hp as <-.
    apply bind_ok in H as (proceed & w1 & Hi & H).
    unfold map_result in Hi. apply bind_ok in Hi as (answer & w2 & Hi & Hret).
    injection Hret as <- <-. rewrite input_run in Hi. cbn [stdin log] in Hi.
    destruct (stdin w) as [|line rest] eqn:Hin; [done|]. injection Hi as <- <-.
    destruct (bool_decide (PyStr.lower line ≠ "y")).
    + apply bind_ok in H as ([] & w1 & Hp & H). done.
    + eexists. split; [done|]. split; [done|]. split; [exact H|].
      cbn. unfold opens, writes, gets.
      repeat split; rewrite ?omap_snoc; cbn; by rewrite ?app_nil_r.
  - eexists. split; [done|]. split; [done|]. split; [exact H|].
    cbn. unfold opens, writes, gets.
    repeat split; rewrite ?omap_snoc; cbn; by rewrite ?app_nil_r.
Qed.

Lemma issubclass_exception c : issubclass c Exception = true.
Proof. by destruct c. Qed.

(** An exception of the attempt is reported and turned into [None]. *)
Lemma download_image_handles env url download_dir w e w1 :
  download_attempt env url download_dir w = Some (Raise e, w1) ->
  download_image env url download_dir w
  = Some (Ok None, log (EvPrint (handler_message e)) w1).
Proof.
  intros H. unfold download_image, try_except. rewrite H.
  unfold handler_message, handling_clause.
  destruct e as [c s]. destruct c; reflexivity.
Qed.

Lemma download_image_returns env url download_dir w res w1 :
  download_attempt env url download_dir w = Some (Ok res, w1) ->
  download_image env url download_dir w = Some (Ok res, w1).
Proof. intros H. unfold download_image, try_except. by rewrite H. Qed.

Lemma download_image_ok env url download_dir w free w' :
  download_image env url download_dir w = Some (Ok (Some free), w') ->
  download_attempt env url download_dir w = Some (Ok (Some free), w').
Proof.
  destruct (download_attempt env url download_dir w) as [[[res|e] w1]|] eqn:E.
  - by rewrite (download_image_returns _ _ _ _ _ _ E).
  - by rewrite (download_image_handles _ _ _ _ _ _ E).
  - unfold download_image, try_except. by rewrite E.
Qed.

End SuccessFacts.

(** ** Requests sent *)

Section QuietFacts.

Lemma gets_log e w :
  gets (trace (log e w)) =
  gets (trace w) ++ match e with EvGet u => [u] | _ => [] end.
Proof. cbn. unfold gets. rewrite omap_snoc. by destruct e. Qed.


















End QuietFacts.

(** ** The Fetcher *)

Section FetcherFacts.
Import PyStr.

Lemma path_exists_same_fs w0 w p :
  files w0 = files w -> dirs w0 = dirs w -> path_exists w0 p = path_exists w p.
Proof. unfold path_exists. by intros -> ->. Qed.

Lemma get_valid_filename_safe now url content_type f :
  get_valid_filename now url content_type = Ok f ->
  all_chars Re.in_safe_class f = true.
Proof.
  unfold get_valid_filename.
  destruct (unsanitized_filename now url content_type); [|done].
  intros [= <-]. apply sub_unsafe_in_class.
Qed.

Lemma get_valid_filename_no_separator now url content_type f :
  get_valid_filename now url content_type = Ok f ->
  contains "/" f = false /\ contains "\" f = false.
Proof.
  intros H%get_valid_filename_safe.
  split; by apply (all_chars_not_contains Re.in_safe_class).
Qed.

(** The events of a download that succeeds, by kind. *)
Lemma save_response_trace env url download_dir content_type r w free w' :
  save_response env url download_dir content_type r w = Some (Ok (Some free), w') ->
  opens (trace w') = opens (trace w) ++ [(free, WriteBinary)]
  /\ writes (trace w') = writes (trace w)
                         ++ ((fun chunk => (free, chunk)) <$> iter_content 8192 r)
  /\ files w' = <[free := body r]> (files w)
  /\ path_exists w free = false.
Proof.
  intros H. apply save_response_ok in H
    as (filename & free' & total & [= <-] & _ & Hres & _ & _ & _ & Hfiles & _ & _ & Htrace).
  destruct (chunk_events_nonempty free total (iter_content 8192 r) 0) as (Hw & Ho & _).
  { apply iter_content_pieces. }
  rewrite Htrace. unfold opens, writes in *.
  rewrite !omap_app, Hw, Ho. cbn. rewrite app_nil_r.
  repeat split; try done.
  destruct (resolve_collision_run w (PosixPath.join download_dir filename))
    as (free' & Hrun & Hprobe).
  rewrite Hrun in Hres. injection Hres as ->.
  by apply probe_some in Hprobe as [? _].
Qed.

(** The path chosen by the loop, as a name below the directory. *)
Lemma resolved_path_component download_dir filename w free :
  contains "/" filename = false -> contains "\" filename = false ->
  resolve_collision (PosixPath.join download_dir filename) w = Some (Ok free, w) ->
  exists component,
    (component = filename \/ exists k, (1 <= k)%N /\ component = suffixed filename k)
    /\ free = PosixPath.join download_dir component
    /\ PosixPath.basename free = component
    /\ contains "/" component = false /\ contains "\" component = false.
Proof.
  intros Hs Hb Hres.
  destruct (resolve_collision_run w (PosixPath.join download_dir filename))
    as (free' & Hrun & Hprobe).
  rewrite Hrun in Hres. injection Hres as ->.
  destruct (join_prefix download_dir) as (pre & Hpre & Hjoin).
  apply probe_some in Hprobe as [_ [[_ ->]|[_ (k & Hk & -> & _)]]].
  - exists filename. rewrite (Hjoin _ Hs).
    repeat split; auto using basename_prefixed.
  - exists (suffixed filename k).
    assert (contains "/" (suffixed filename k) = false) as Hs' by by apply suffixed_no_char.
    assert (contains "\" (suffixed filename k) = false) as Hb' by by apply suffixed_no_char.
    rewrite (Hjoin _ Hs), (suffixed_prefixed _ _ _ Hpre Hs), (Hjoin _ Hs').
    repeat split; eauto using basename_prefixed.
Qed.

Lemma raise_for_status_run r w :
  raise_for_status r w = Some (Ok tt, w)
  \/ exists e, exn_cls e = HTTPError /\ raise_for_status r w = Some (Raise e, w).
Proof.
  unfold raise_for_status, raise, ret.
  repeat case_match;
    first [by left | right; eexists; split; [|reflexivity]; reflexivity].
Qed.





End FetcherFacts.

(** C2, as stated, fails in its first part: the file is opened in mode
    ['wb'], not for exclusive creation.  The download of [cat_url] opens
    [Fetched_Images/cat.jpg] in that mode, and the mode does not fail on a
    file that exists: it empties it, where ['xb'] raises [FileExistsError]. *)
Lemma open_mode_is_not_exclusive :
  let fetch := download_image sample_env cat_url "Fetched_Images" in
  let w1 := world_after fetch empty_world in
  let reopen mode := open_file sample_env "Fetched_Images/cat.jpg" mode in
  opens (trace w1) = [("Fetched_Images/cat.jpg", WriteBinary)]
  /\ files w1 !! "Fetched_Images/cat.jpg" = Some (body cat_response)
  /\ returned (reopen WriteBinary) w1 = Some (Ok tt)
  /\ files (world_after (reopen WriteBinary) w1) !! "Fetched_Images/cat.jpg" = Some []
  /\ returned (reopen ExclusiveBinary) w1
     = Some (Raise (Exn FileExistsError
                      "[Errno 17] File exists: 'Fetched_Images/cat.jpg'")).
Proof. vm_compute. done. Qed.

(** The chunks are written as the library yields them: here two bytes and
    then one, although pieces of 8192 bytes were asked for. *)
Example short_pieces_are_written_as_they_come :
  let fetch := download_image compressed_env cat_url "Fetched_Images" in
  writes (trace (world_after fetch empty_world))
  = [("Fetched_Images/cat.jpg", [Byte.x01; Byte.x02]);
     ("Fetched_Images/cat.jpg", [Byte.x03])]
  /\ files (world_after fetch empty_world) !! "Fetched_Images/cat.jpg"
     = Some (body compressed_response).
Proof. vm_compute. done. Qed.

(** C2, amended.  A download that returns a path has opened that path, and
    no other, once, for binary writing in the mode ['wb'] that creates or
    truncates; the path did not exist when it was chosen.  The chunks that
    [iter_content], asked for pieces of 8192 bytes, has yielded were written
    to it one after the other; none is empty, together they are the body,
    and the file holds the body. *)
Theorem download_opens_once_and_streams
    (env : environ) (url download_dir : string) (w w' : world) (free : string) :
  download_image env url download_dir w = Some (Ok (Some free), w') ->
  exists r,
    http env url = Responds r
    /\ path_exists w free = false
    /\ opens (trace w') = opens (trace w) ++ [(free, WriteBinary)]
    /\ writes (trace w') = writes (trace w)
                           ++ ((fun chunk => (free, chunk)) <$> iter_content 8192 r)
    /\ concat (iter_content 8192 r) = body r
    /\ Forall (fun chunk => chunk <> []) (iter_content 8192 r)
    /\ files w' = <[free := body r]> (files w).
Proof.
  intros H%download_image_ok.
  apply download_attempt_ok in H
    as (r & ct & w0 & Hhttp & _ & Hsave & Hf & Hd & Ho & Hw & _).
  apply save_response_trace in Hsave as (Hopens & Hwrites & Hfiles & Hfree).
  destruct (iter_content_pieces 8192 r) as (Hconcat & Hall).
  exists r. rewrite <- Ho, <- Hw, <- Hf.
  rewrite <- (path_exists_same_fs w0 w) by done.
  repeat split; try done.
  eapply Forall_impl; [exact Hall|]. intros chunk Hlen ->. cbn in Hlen. lia.
Qed.

Lemma download_opens_once_and_streams_witness :
  exists w',
    download_image sample_env cat_url "Fetched_Images" empty_world
    = Some (Ok (Some "Fetched_Images/cat.jpg"), w')
    /\ opens (trace w') = [("Fetched_Images/cat.jpg", WriteBinary)]
    /\ files w' !! "Fetched_Images/cat.jpg" = Some (body cat_response).
Proof.
  eexists. split; [vm_compute; reflexivity|].
  edestruct (download_opens_once_and_streams sample_env cat_url "Fetched_Images"
               empty_world) as (r & Hhttp & _ & Hopens & _ & _ & _ & Hfiles).
  { vm_compute. reflexivity. }
  injection Hhttp as <-.
  split; [exact Hopens|]. rewrite Hfiles. apply lookup_insert_eq.
Defined.

(** C5.  When the server responds with a content type that does not start
    with [image/] and the answer to the confirmation prompt is not [y] (in
    either case of the letter; the end of the input counts as no answer), the
    Fetcher returns [None], the files and directories are as before, and
    nothing was opened or written. *)
Theorem declined_download_creates_nothing
    (env : environ) (url download_dir : string) (w : world) (r : response) :
  http env url = Responds r ->
  PyStr.startswith "image/" (PyStr.lower (default EmptyString (content_type_header r)))
  = false ->
  (forall answer rest, stdin w = answer :: rest -> PyStr.lower answer <> "y") ->
  exists w',
    download_image env url download_dir w = Some (Ok None, w')
    /\ files w' = files w
    /\ dirs w' = dirs w
    /\ opens (trace w') = opens (trace w)
    /\ writes (trace w') = writes (trace w).
Proof.
  intros Hhttp Hct Hanswer.
  set (w1 := log (EvGet url) (log (EvPrint ("Connecting to: " +:+ url)) w)).
  assert (requests_get env url (log (EvPrint ("Connecting to: " +:+ url)) w)
          = Some (Ok r, w1)) as Hget.
  { unfold requests_get. rewrite (bind_run_ok _ _ _ _ _ (emit_run _ _)).
    by rewrite Hhttp. }
  assert (exists res w2,
    download_attempt env url download_dir w = Some (res, w2)
    /\ (res = Ok None \/ exists e, res = Raise e)
    /\ files w2 = files w /\ dirs w2 = dirs w
    /\ opens (trace w2) = opens (trace w)
    /\ writes (trace w2) = writes (trace w)) as (res & w2 & Hrun & Hres & Hfs).
  { unfold download_attempt.
    rewrite (bind_run_ok _ _ _ _ _ (print_run _ _)), (bind_run_ok _ _ _ _ _ Hget).
    destruct (raise_for_status_run r w1) as [Hs|(e & _ & Hs)].
    - rewrite (bind_run_ok _ _ _ _ _ Hs), Hct. cbn [negb].
      rewrite (bind_run_ok _ _ _ _ _ (print_run _ _)).
      unfold map_result. unfold bind at 1. unfold bind at 1.
      rewrite input_run. change (stdin (log _ w1)) with (stdin w).
      destruct (stdin w) as [|answer rest] eqn:Hin.
      + do 2 eexists. split; [reflexivity|]. split; [eauto|].
        cbn. unfold opens, writes. rewrite !omap_snoc. cbn.
        by rewrite !app_nil_r.
      + unfold ret at 1. rewrite bool_decide_true by by eapply Hanswer.
        rewrite (bind_run_ok _ _ _ _ _ (print_run _ _)).
        do 2 eexists. split; [reflexivity|]. split; [eauto|].
        cbn. unfold opens, writes. rewrite !omap_snoc. cbn.
        by rewrite !app_nil_r.
    - rewrite (bind_run_raise _ _ _ _ _ Hs).
      do 2 eexists. split; [reflexivity|]. split; [eauto|].
      cbn. unfold opens, writes. rewrite !omap_snoc. cbn.
      by rewrite !app_nil_r. }
  destruct Hfs as (Hf & Hd & Ho & Hw).
  destruct Hres as [->|[e ->]].
  - exists w2. by rewrite (download_image_returns _ _ _ _ _ _ Hrun).
  - exists (log (EvPrint (handler_message e)) w2).
    rewrite (download_image_handles _ _ _ _ _ _ Hrun).
    cbn. unfold opens, writes in *. rewrite !omap_snoc. cbn.
    by rewrite !app_nil_r.
Qed.

Lemma declined_download_creates_nothing_witness :
  exists w',
    download_image page_env "https://example.com/index.html" "Fetched_Images"
      (typing ["n"]) = Some (Ok None, w')
    /\ files w' = ∅.
Proof.
  edestruct (declined_download_creates_nothing page_env
               "https://example.com/index.html" "Fetched_Images" (typing ["n"])
               page_response) as (w' & Hrun & Hfiles & _).
  - reflexivity.
  - reflexivity.
  - intros answer rest [= <- <-]. discriminate.
  - exists w'. split; [exact Hrun|exact Hfiles].
Defined.

(** C10.  The filename of the Resolver holds neither [/] nor [\].  The path
    that a download returns is the output directory joined with one name:
    the filename, or the filename with [_k] before its extension.  That
    name holds neither [/] nor [\] and is neither [.] nor [..], it is the
    last component of the path, and the path is the only one opened. *)
Theorem download_path_below_directory
    (now : datetime) (url0 content_type0 f : string)
    (env : environ) (url download_dir : string) (w w' : world) (free : string) :
  (get_valid_filename now url0 content_type0 = Ok f ->
   PyStr.contains "/" f = false /\ PyStr.contains "\" f = false)
  /\ (download_image env url download_dir w = Some (Ok (Some free), w') ->
      exists content_type filename component,
        get_valid_filename (clock env) url content_type = Ok filename
        /\ (component = filename
            \/ exists k, (1 <= k)%N /\ component = suffixed filename k)
        /\ free = PosixPath.join download_dir component
        /\ PosixPath.basename free = component
        /\ PyStr.contains "/" component = false
        /\ PyStr.contains "\" component = false
        /\ component <> "." /\ component <> ".."
        /\ opens (trace w') = opens (trace w) ++ [(free, WriteBinary)]).
Proof.
  split; [apply get_valid_filename_no_separator|].
  intros H%download_image_ok.
  apply download_attempt_ok in H
    as (r & ct & w0 & _ & _ & Hsave & _ & _ & Ho & _ & _).
  pose proof (save_response_trace _ _ _ _ _ _ _ _ Hsave) as (Hopens & _).
  apply save_response_ok in Hsave
    as (filename & free' & total & [= <-] & Hname & Hres & _ & Hbase & _).
  destruct (get_valid_filename_no_separator _ _ _ _ Hname) as [Hs Hb].
  destruct (resolved_path_component _ _ _ _ Hs Hb Hres)
    as (component & Hform & Hjoin & Hlast & Hs' & Hb').
  exists ct, filename, component. rewrite <- Ho.
  repeat split; try done.
  - intros ->. apply Hbase. rewrite Hlast, !elem_of_cons. auto.
  - intros ->. apply Hbase. rewrite Hlast, !elem_of_cons. auto.
Qed.

Lemma download_path_below_directory_witness :
  (PyStr.contains "\" ".._.._etc_passwd.txt" = false)
  /\ exists name,
       returned (download_image sample_env "https://example.com/..\..\etc\passwd.txt"
                   "Fetched_Images") empty_world
       = Some (Ok (Some (PosixPath.join "Fetched_Images" name)))
       /\ PyStr.contains "\" name = false.
Proof.
  split.
  - apply (download_path_below_directory sample_time
             "https://example.com/..\..\etc\passwd.txt" "" ".._.._etc_passwd.txt"
             sample_env cat_url "Fetched_Images" empty_world empty_world "").
    reflexivity.
  - destruct (download_image sample_env "https://example.com/..\..\etc\passwd.txt"
                "Fetched_Images" empty_world) as [[[[free|]|e] w']|] eqn:E;
      try (vm_compute in E; discriminate).
    edestruct (download_path_below_directory sample_time "" "" ""
                 sample_env "https://example.com/..\..\etc\passwd.txt"
                 "Fetched_Images" empty_world w' free) as [_ Hpath].
    destruct (Hpath E) as (ct & filename & component & _ & _ & -> & _ & _ & Hb & _).
    exists component. split; [|exact Hb].
    unfold returned. rewrite E. reflexivity.
Defined.



(** * Further properties *)

(** ** Composition of runs *)

Section RespectFacts.
Context (P : world -> world -> Prop) `{!Reflexive P, !Transitive P}.

Lemma respects_ret {A} (a : A) : respects P (ret a).
Proof. intros w res w' [= <- <-]. reflexivity. Qed.

Lemma respects_raise {A} e : respects P (raise (A := A) e).
Proof. intros w res w' [= <- <-]. reflexivity. Qed.

Lemma respects_lift {A} (r : result A) : respects P (lift r).
Proof. destruct r; [apply respects_ret|apply respects_raise]. Qed.

Lemma respects_bind {A B} (m : M A) (k : A -> M B) :
  respects P m -> (forall a, respects P (k a)) -> respects P (bind m k).
Proof.
  intros Hm Hk w res w'. unfold bind.
  destruct (m w) as [[[a|e] w1]|] eqn:E; [|intros [= <- <-]; by eapply Hm|done].
  intros H. transitivity w1; [by eapply Hm|by eapply Hk].
Qed.

Lemma respects_map_result {A B} (f : A -> B) (m : M A) :
  respects P m -> respects P (map_result f m).
Proof. intros Hm. apply respects_bind; [done|]. intros a. apply respects_ret. Qed.

Lemma respects_resolve_collision filepath : respects P (resolve_collision filepath).
Proof.
  intros w res w'. unfold resolve_collision.
  destruct (probe _ _ _ _ _); intros [= <- <-]; reflexivity.
Qed.

Lemma respects_getsize p : respects P (getsize p).
Proof.
  intros w res w'. unfold getsize. case_match; intros [= <- <-]; reflexivity.
Qed.

Lemma respects_raise_for_status r : respects P (raise_for_status r).
Proof.
  unfold raise_for_status. repeat case_match; auto using @respects_raise, @respects_ret.
Qed.

(** A relation that logging keeps. *)
Hypothesis P_log : forall e w, P w (log e w).

Lemma respects_emit e : respects P (emit e).
Proof. intros w res w' [= <- <-]. apply P_log. Qed.

Lemma respects_print line : respects P (print line).
Proof. apply respects_emit. Qed.

Lemma respects_requests_get env url : respects P (requests_get env url).
Proof.
  apply respects_bind; [apply respects_emit|]. intros _.
  case_match; [apply respects_raise|apply respects_ret].
Qed.

(** The handlers of [download_image] only print. *)
Lemma respects_download_image env url download_dir :
  respects P (download_attempt env url download_dir) ->
  respects P (download_image env url download_dir).
Proof.
  intros Hatt w res w'.
  destruct (download_attempt env url download_dir w) as [[[r|e] w1]|] eqn:E.
  - rewrite (download_image_returns _ _ _ _ _ _ E). intros [= <- <-]. by eapply Hatt.
  - rewrite (download_image_handles _ _ _ _ _ _ E). intros [= <- <-].
    transitivity w1; [by eapply Hatt|apply P_log].
  - unfold download_image, try_except. by rewrite E.
Qed.

End RespectFacts.

(** ** What a download does to the disk *)

Section DiskFacts.

Global Instance touches_only_refl free : Reflexive (touches_only free).
Proof. by intros w. Qed.

Global Instance touches_only_trans free : Transitive (touches_only free).
Proof.
  intros w1 w2 w3 [Hd1 Hf1] [Hd2 Hf2]. split; [congruence|].
  intros p Hp. by rewrite Hf2, Hf1.
Qed.

Global Instance keeps_existing_refl : Reflexive keeps_existing.
Proof. by intros w. Qed.

Global Instance keeps_existing_trans : Transitive keeps_existing.
Proof.
  intros w1 w2 w3 [Hd1 Hf1] [Hd2 Hf2]. split; [congruence|]. auto.
Qed.

Lemma touches_only_log free e w : touches_only free w (log e w).
Proof. done. Qed.

Lemma keeps_existing_log e w : keeps_existing w (log e w).
Proof. done. Qed.

Lemma keeps_existing_set_stdin i w : keeps_existing w (set_stdin i w).
Proof. done. Qed.

Lemma respects_touches_open_file env free mode :
  respects (touches_only free) (open_file env free mode).
Proof.
  apply respects_bind; [apply _|apply respects_emit, touches_only_log|].
  intros _ w res w'. repeat case_match; intros [= <- <-]; try reflexivity;
    (split; [done|]; intros p Hp; cbn; by rewrite lookup_insert_ne).
Qed.

Lemma respects_touches_file_write free chunk :
  respects (touches_only free) (file_write free chunk).
Proof.
  apply respects_bind; [apply _|apply respects_emit, touches_only_log|].
  intros _ w res w' [= <- <-].
  split; [done|]. intros p Hp. cbn. by rewrite lookup_insert_ne.
Qed.

Lemma respects_touches_write_chunks free total_size chunks downloaded :
  respects (touches_only free) (write_chunks free total_size chunks downloaded).
Proof.
  revert downloaded. induction chunks as [|chunk rest IH]; intros downloaded.
  - apply respects_ret, _.
  - cbn [write_chunks]. case_match; [|apply IH].
    apply respects_bind; [apply _|apply respects_touches_file_write|]. intros _.
    apply respects_bind; [apply _| |intros _; apply IH].
    case_match; [apply respects_emit, touches_only_log|apply respects_ret, _].
Qed.

(** From the choice of the path on, [save_response] touches that path only. *)
Lemma save_response_touches env url download_dir content_type r w res w' :
  save_response env url download_dir content_type r w = Some (res, w') ->
  w' = w
  \/ exists filename free,
       get_valid_filename (clock env) url content_type = Ok filename
       /\ resolve_collision (PosixPath.join download_dir filename) w = Some (Ok free, w)
       /\ path_exists w free = false
       /\ touches_only free w w'.
Proof.
  unfold save_response. intros H.
  destruct (get_valid_filename (clock env) url content_type) as [filename|e] eqn:Hname.
  - right. rewrite (bind_run_ok _ _ _ filename w) in H by done.
    destruct (resolve_collision_run w (PosixPath.join download_dir filename))
      as (free & Hrun & Hprobe).
    rewrite (bind_run_ok _ _ _ _ _ Hrun) in H.
    exists filename, free. split; [done|]. split; [done|].
    split; [by apply probe_some in Hprobe as [? _]|].
    revert H.
    match goal with
    | |- ?m w = _ -> _ => assert (respects (touches_only free) m) as Hr
    end.
    { repeat first
        [ apply respects_lift, _
        | apply respects_print, touches_only_log
        | apply respects_touches_open_file | apply respects_touches_write_chunks
        | apply respects_getsize, _
        | apply respects_ret, _ | apply respects_raise, _
        | apply respects_bind; [apply _| |intros ?]
        | case_match ]. }
    apply Hr.
  - left. unfold bind, lift, raise in H. by injection H as _ <-.
Qed.

Lemma respects_keeps_save_response env url download_dir content_type r :
  respects keeps_existing (save_response env url download_dir content_type r).
Proof.
  intros w res w' [->|(filename & free & _ & _ & Hfree & Hd & Hf)]%save_response_touches;
    [reflexivity|].
  split; [done|]. intros p content Hp. rewrite Hf; [done|].
  intros ->. unfold path_exists in Hfree.
  apply orb_false_iff in Hfree as [Hfree _]. apply bool_decide_eq_false in Hfree.
  apply Hfree, elem_of_dom. eauto.
Qed.

Lemma respects_keeps_input prompt : respects keeps_existing (input prompt).
Proof.
  apply respects_bind; [apply _|apply respects_emit, keeps_existing_log|].
  intros _ w res w'. destruct (stdin w); intros [= <- <-]; done.
Qed.

Lemma respects_keeps_download_attempt env url download_dir :
  respects keeps_existing (download_attempt env url download_dir).
Proof.
  unfold download_attempt.
  repeat first
    [ apply respects_print, keeps_existing_log
    | apply (respects_requests_get _ keeps_existing_log)
    | apply respects_raise_for_status; apply _
    | apply respects_keeps_save_response
    | apply respects_map_result; [apply _|apply _|apply respects_keeps_input]
    | apply respects_ret, _
    | apply respects_bind; [apply _| |intros ?]
    | progress cbv zeta
    | case_match ].
Qed.

End DiskFacts.

(** X2.  Whatever the outcome of a download, the directories are as before
    and every file that existed still exists with the content it had: a
    download never overwrites, truncates or deletes an existing file. *)
Theorem download_image_keeps_existing_files
    (env : environ) (url download_dir : string) (w w' : world)
    (res : result (option string)) :
  download_image env url download_dir w = Some (res, w') ->
  dirs w' = dirs w
  /\ forall p content, files w !! p = Some content -> files w' !! p = Some content.
Proof.
  apply (respects_download_image keeps_existing keeps_existing_log).
  apply respects_keeps_download_attempt.
Qed.

Lemma download_image_keeps_existing_files_witness :
  let fetch := download_image sample_env cat_url "Fetched_Images" in
  let w1 := world_after fetch empty_world in
  files (world_after fetch w1) !! "Fetched_Images/cat.jpg" = Some (body cat_response).
Proof.
  cbv zeta.
  destruct (download_image sample_env cat_url "Fetched_Images"
              (world_after (download_image sample_env cat_url "Fetched_Images") empty_world))
    as [[res w2]|] eqn:E; [|vm_compute in E; discriminate].
  unfold world_after at 1. rewrite E. cbn [from_option snd].
  apply (download_image_keeps_existing_files _ _ _ _ _ _ E).
  vm_compute. reflexivity.
Defined.

(** ** Why a download has failed *)

Section ExplainedFacts.
Import PyStr.


End ExplainedFacts.



(** ** What is read from the console *)

Section InputFacts.

Global Instance same_stdin_refl : Reflexive same_stdin.
Proof. by intros w. Qed.

Global Instance same_stdin_trans : Transitive same_stdin.
Proof. unfold same_stdin. intros w1 w2 w3 H1 H2. congruence. Qed.

Lemma same_stdin_log e w : same_stdin w (log e w).
Proof. done. Qed.

Lemma respects_stdin_open_file env p mode : respects same_stdin (open_file env p mode).
Proof.
  apply respects_bind; [apply _|apply respects_emit, same_stdin_log|].
  intros _ w res w'. repeat case_match; intros [= <- <-]; done.
Qed.

Lemma respects_stdin_file_write p chunk : respects same_stdin (file_write p chunk).
Proof.
  apply respects_bind; [apply _|apply respects_emit, same_stdin_log|].
  by intros _ w res w' [= <- <-].
Qed.

Lemma respects_stdin_write_chunks p total_size chunks downloaded :
  respects same_stdin (write_chunks p total_size chunks downloaded).
Proof.
  revert downloaded. induction chunks as [|chunk rest IH]; intros downloaded.
  - apply respects_ret, _.
  - cbn [write_chunks]. case_match; [|apply IH].
    apply respects_bind; [apply _|apply respects_stdin_file_write|]. intros _.
    apply respects_bind; [apply _| |intros _; apply IH].
    case_match; [apply respects_emit, same_stdin_log|apply respects_ret, _].
Qed.

(** [save_response] reads nothing. *)
Lemma respects_stdin_save_response env url download_dir content_type r :
  respects same_stdin (save_response env url download_dir content_type r).
Proof.
  unfold save_response.
  repeat first
    [ apply respects_lift, _
    | apply respects_print, same_stdin_log
    | apply respects_resolve_collision, _
    | apply respects_stdin_open_file | apply respects_stdin_write_chunks
    | apply respects_getsize, _
    | apply respects_ret, _ | apply respects_raise, _
    | apply respects_bind; [apply _| |intros ?]
    | case_match ].
Qed.

Lemma requests_get_run env url w :
  requests_get env url w =
  match http env url with
  | Fails e => Some (Raise e, log (EvGet url) w)
  | Responds r => Some (Ok r, log (EvGet url) w)
  end.
Proof.
  unfold requests_get. rewrite (bind_run_ok _ _ _ _ _ (emit_run _ _)).
  by destruct (http env url).
Qed.

(** An attempt reads a line only to have a response confirmed that is not
    an image. *)
Lemma download_attempt_input env url download_dir w res w' :
  download_attempt env url download_dir w = Some (res, w') ->
  stdin w' = stdin w
  \/ exists answer r,
       stdin w = answer :: stdin w'
       /\ http env url = Responds r
       /\ PyStr.startswith "image/" (fetched_content_type r) = false.
Proof.
  unfold download_attempt. rewrite (bind_run_ok _ _ _ _ _ (print_run _ _)).
  set (w1 := log (EvGet url) (log (EvPrint ("Connecting to: " +:+ url)) w)).
  pose proof (requests_get_run env url (log (EvPrint ("Connecting to: " +:+ url)) w))
    as Hget. fold w1 in Hget.
  destruct (http env url) as [e|r] eqn:Hhttp.
  { rewrite (bind_run_raise _ _ _ _ _ Hget). intros [= <- <-]. by left. }
  rewrite (bind_run_ok _ _ _ _ _ Hget).
  destruct (raise_for_status_run r w1) as [Hs|(e & _ & Hs)].
  2:{ rewrite (bind_run_raise _ _ _ _ _ Hs). intros [= <- <-]. by left. }
  rewrite (bind_run_ok _ _ _ _ _ Hs).
  fold (fetched_content_type r).
  destruct (PyStr.startswith "image/" (fetched_content_type r)) eqn:Hct; cbn [negb].
  { intros H%respects_stdin_save_response. left. exact H. }
  rewrite (bind_run_ok _ _ _ _ _ (print_run _ _)).
  unfold map_result. unfold bind at 1. unfold bind at 1.
  rewrite input_run. change (stdin (log _ w1)) with (stdin w).
  destruct (stdin w) as [|answer rest] eqn:Hin.
  { intros [= <- <-]. left. cbn. done. }
  unfold ret at 1. destruct (bool_decide (PyStr.lower answer ≠ "y")).
  - rewrite (bind_run_ok _ _ _ _ _ (print_run _ _)). intros [= <- <-].
    right. by exists answer, r.
  - intros H%respects_stdin_save_response. right. exists answer, r.
    unfold same_stdin in H. cbn in H. by rewrite H.
Qed.

Lemma download_image_input env url download_dir w res w' :
  download_image env url download_dir w = Some (res, w') ->
  stdin w' = stdin w
  \/ exists answer r,
       stdin w = answer :: stdin w'
       /\ http env url = Responds r
       /\ PyStr.startswith "image/" (fetched_content_type r) = false.
Proof.
  destruct (download_attempt env url download_dir w) as [[[r|e] w1]|] eqn:E.
  - rewrite (download_image_returns _ _ _ _ _ _ E). intros [= <- <-].
    by eapply download_attempt_input.
  - rewrite (download_image_handles _ _ _ _ _ _ E). intros [= <- <-].
    exact (download_attempt_input _ _ _ _ _ _ E).
  - unfold download_image, try_except. by rewrite E.
Qed.

End InputFacts.

(** X3.  A download reads at most one line from the console, and reads it
    only when the server has responded with a content type that does not
    start with [image/] (in lower case). *)
Theorem download_image_reads_at_most_one_line
    (env : environ) (url download_dir : string) (w w' : world)
    (res : result (option string)) :
  download_image env url download_dir w = Some (res, w') ->
  stdin w' = stdin w
  \/ exists answer r,
       stdin w = answer :: stdin w'
       /\ http env url = Responds r
       /\ PyStr.startswith "image/" (fetched_content_type r) = false.
Proof. apply download_image_input. Qed.

Lemma download_image_reads_at_most_one_line_witness :
  stdin (world_after (download_image sample_env cat_url "Fetched_Images")
           (typing ["y"; "n"]))
  = ["y"; "n"].
Proof.
  destruct (download_image sample_env cat_url "Fetched_Images" (typing ["y"; "n"]))
    as [[res w']|] eqn:E; [|vm_compute in E; discriminate].
  unfold world_after. rewrite E. cbn [from_option snd].
  destruct (download_image_reads_at_most_one_line _ _ _ _ _ _ E)
    as [H|(answer & r & _ & Hhttp & Hct)]; [exact H|].
  injection Hhttp as <-. vm_compute in Hct. discriminate.
Defined.

(** ** The loop *)

Section LoopCases.
Import PyStr.

Lemma loop_body_reads env download_dir w line rest :
  stdin w = line :: rest ->
  loop_body env download_dir w =
  (let url := strip line in
   if bool_decide (lower url ∈ ["quit"; "exit"; "q"]) then
     bind (print "Goodbye!") (fun _ => ret Terminated)
   else if String.eqb url EmptyString then
     bind (print "Please enter a valid URL.") (fun _ => ret Prompting)
   else
     bind (download_image env url download_dir) (fun downloaded_file =>
     bind (if truthy downloaded_file
           then print "✓ Download successful!"
           else print "✗ Download failed.") (fun _ =>
     bind (map_result lower (input (String "010" "Download another image? (y/n): ")))
       (fun continue_download =>
     if bool_decide (continue_download ≠ "y") then
       bind (print "Goodbye!") (fun _ => ret Terminated)
     else ret Prompting))))
    (set_stdin rest
       (log (EvPrompt "Enter the image URL (or 'quit' to exit): ")
          (log (EvPrint (String "010" (repeat_char "-" 30))) w))).
Proof.
  intros Hin. unfold loop_body. rewrite (bind_run_ok _ _ _ _ _ (print_run _ _)).
  unfold map_result at 1. unfold bind at 1. unfold bind at 1.
  rewrite input_run. cbn [stdin log]. rewrite Hin. reflexivity.
Qed.

Lemma makedirs_run env p w :
  makedirs env p w =
  match makedirs_error env p with
  | Some e => Some (Raise e, log (EvMakedirs p) w)
  | None =>
      if bool_decide (p ∈ dom (files w))
      then Some (Raise (Exn FileExistsError ("[Errno 17] File exists: '" +:+ p +:+ "'")),
                 log (EvMakedirs p) w)
      else Some (Ok tt, set_dirs ({[p]} ∪ dirs w) (log (EvMakedirs p) w))
  end.
Proof.
  unfold makedirs. rewrite (bind_run_ok _ _ _ _ _ (emit_run _ _)).
  cbn [files dirs log]. reflexivity.
Qed.

Lemma create_directory_success env directory_name w :
  makedirs_error env directory_name = None ->
  directory_name ∉ dom (files w) ->
  create_directory env directory_name w =
  Some (Ok true,
        log (EvPrint ("Directory '" +:+ directory_name +:+ "' is ready."))
          (set_dirs ({[directory_name]} ∪ dirs w) (log (EvMakedirs directory_name) w))).
Proof.
  intros Herr Hfile. unfold create_directory, try_except.
  assert (makedirs env directory_name w
          = Some (Ok tt, set_dirs ({[directory_name]} ∪ dirs w)
                           (log (EvMakedirs directory_name) w))) as Hrun.
  { rewrite makedirs_run, Herr. by rewrite bool_decide_false. }
  rewrite (bind_run_ok _ _ _ _ _ Hrun). cbv beta.
  rewrite (bind_run_ok _ _ _ _ _ (print_run _ _)). reflexivity.
Qed.

Lemma create_directory_failure env directory_name w e :
  makedirs env directory_name w = Some (Raise e, log (EvMakedirs directory_name) w) ->
  issubclass (exn_cls e) OSError = true ->
  create_directory env directory_name w =
  Some (Ok false,
        log (EvPrint ("Error creating directory: " +:+ exn_str e))
          (log (EvMakedirs directory_name) w)).
Proof.
  intros Hrun Hsub. unfold create_directory, try_except.
  rewrite (bind_run_raise _ _ _ _ _ Hrun). cbn [List.find fst snd].
  rewrite Hsub. cbv beta iota. cbn [snd]. cbv beta.
  rewrite (bind_run_ok _ _ _ _ _ (print_run _ _)). reflexivity.
Qed.

End LoopCases.

(** X4.  A pass of the loop that ends without exception has read its
    lines from the front of the input, one to three of them: the line of
    the URL alone when it is a command to quit (the loop stops) or blank
    (the loop prompts again); otherwise also the answer to the question of
    the download, if it was asked, and then the answer to
    [Download another image?], which chooses the next state. *)
Theorem loop_pass_reads_its_lines
    (env : environ) (download_dir : string) (w w' : world) (state : loop_state) :
  loop_body env download_dir w = Some (Ok state, w') ->
  exists line more,
    stdin w = line :: more ++ stdin w'
    /\ ((PyStr.lower (PyStr.strip line) ∈ ["quit"; "exit"; "q"]
         /\ more = [] /\ state = Terminated)
        \/ (PyStr.strip line = EmptyString /\ more = [] /\ state = Prompting)
        \/ ((PyStr.lower (PyStr.strip line) ∉ ["quit"; "exit"; "q"])
            /\ PyStr.strip line <> EmptyString
            /\ exists asked answer,
                 more = asked ++ [answer]
                 /\ (length asked <= 1)%nat
                 /\ state = state_after_answer answer)).
Proof.
  destruct (stdin w) as [|line rest] eqn:Hin.
  { unfold loop_body. rewrite (bind_run_ok _ _ _ _ _ (print_run _ _)).
    unfold map_result at 1. unfold bind at 1. unfold bind at 1.
    rewrite input_run. cbn [stdin log]. by rewrite Hin. }
  rewrite (loop_body_reads _ _ _ _ _ Hin). cbv zeta.
  case_bool_decide as Hquit.
  { rewrite (bind_run_ok _ _ _ _ _ (print_run _ _)). intros [= <- <-].
    exists line, []. split; [done|]. by left. }
  destruct (String.eqb_spec (PyStr.strip line) EmptyString) as [Hblank|Hurl].
  { rewrite (bind_run_ok _ _ _ _ _ (print_run _ _)). intros [= <- <-].
    exists line, []. split; [done|]. right. by left. }
  intros H. apply bind_ok in H as (res & w2 & Hdl & H).
  apply bind_ok in H as ([] & w3 & Hp & H).
  assert (stdin w3 = stdin w2) as Hin3.
  { destruct (truthy res); rewrite print_run in Hp; by injection Hp as <-. }
  apply bind_ok in H as (continue_download & w4 & Hi & H).
  unfold map_result in Hi. apply bind_ok in Hi as (answer & w5 & Hi & Hret).
  injection Hret as <- <-. rewrite input_run in Hi. rewrite Hin3 in Hi.
  destruct (stdin w2) as [|answer' rest2] eqn:Hin2; [done|]. injection Hi as <- <-.
  assert (stdin w' = rest2 /\ state = state_after_answer answer') as [Hrest ->].
  { unfold state_after_answer. destruct (bool_decide (PyStr.lower answer' ≠ "y")).
    - rewrite (bind_run_ok _ _ _ _ _ (print_run _ _)) in H. by injection H as <- <-.
    - by injection H as <- <-. }
  apply download_image_input in Hdl as [Hsame|(asked & r & Hcons & _)];
    cbn [stdin set_stdin log] in *.
  - exists line, [answer']. rewrite <- Hsame, Hin2, Hrest. split; [done|].
    right. right. split; [done|]. split; [done|]. exists [], answer'. cbn. auto.
  - exists line, [asked; answer']. rewrite Hcons, Hin2, Hrest. split; [done|].
    right. right. split; [done|]. split; [done|]. exists [asked], answer'. cbn. auto.
Qed.

Lemma loop_pass_reads_its_lines_witness :
  exists line more, [cat_url; "n"; "q"] = line :: more ++ ["q"].
Proof.
  destruct (loop_body sample_env "Fetched_Images" (typing [cat_url; "n"; "q"]))
    as [[[state|e] w']|] eqn:E; [|vm_compute in E; discriminate..].
  destruct (loop_pass_reads_its_lines _ _ _ _ _ E) as (line & more & Hin & _).
  vm_compute in E. injection E as _ <-.
  exists line, more. exact Hin.
Defined.

(** X5.  A line that is [quit], [exit] or [q] once the white space around
    it is stripped and its letters are put in lower case ends the loop: the
    pass prints [Goodbye!], sends no request, leaves the disk as it is and
    leaves the rest of the input unread. *)
Theorem loop_quits_on_command
    (env : environ) (envs : list environ) (download_dir line : string)
    (rest : list string) (w : world) :
  stdin w = line :: rest ->
  PyStr.lower (PyStr.strip line) ∈ ["quit"; "exit"; "q"] ->
  let w' := log (EvPrint "Goodbye!")
              (set_stdin rest
                 (log (EvPrompt "Enter the image URL (or 'quit' to exit): ")
                    (log (EvPrint (String "010" (repeat_char "-" 30))) w))) in
  loop_body env download_dir w = Some (Ok Terminated, w')
  /\ main_loop (env :: envs) download_dir w = Some (Ok tt, w')
  /\ gets (trace w') = gets (trace w)
  /\ same_fs w w'
  /\ stdin w' = rest.
Proof.
  intros Hin Hquit w'.
  assert (loop_body env download_dir w = Some (Ok Terminated, w')) as Hbody.
  { rewrite (loop_body_reads _ _ _ _ _ Hin). cbv zeta.
    rewrite bool_decide_true by done.
    by rewrite (bind_run_ok _ _ _ _ _ (print_run _ _)). }
  split; [done|]. split.
  { cbn [main_loop]. by rewrite (bind_run_ok _ _ _ _ _ Hbody). }
  split; [|done].
  unfold w'. cbn [trace log set_stdin]. unfold gets. rewrite !omap_snoc. cbn.
  by rewrite !app_nil_r.
Qed.

Lemma loop_quits_on_command_witness :
  exists w',
    main_loop [unreachable_env] "Fetched_Images" (typing ["  QUIT "; cat_url])
    = Some (Ok tt, w')
    /\ stdin w' = [cat_url].
Proof.
  edestruct (loop_quits_on_command unreachable_env [] "Fetched_Images" "  QUIT "
               [cat_url] (typing ["  QUIT "; cat_url]))
    as (_ & Hloop & _ & _ & Hin).
  - reflexivity.
  - rewrite !elem_of_cons. left. reflexivity.
  - eexists. split; [exact Hloop|exact Hin].
Defined.

(** X6.  A line that is empty once the white space around it is stripped is
    not taken for a URL: the pass prints [Please enter a valid URL.], sends
    no request, and the loop prompts again. *)
Theorem loop_prompts_again_on_blank_line
    (env : environ) (envs : list environ) (download_dir line : string)
    (rest : list string) (w : world) :
  stdin w = line :: rest ->
  PyStr.strip line = EmptyString ->
  let w' := log (EvPrint "Please enter a valid URL.")
              (set_stdin rest
                 (log (EvPrompt "Enter the image URL (or 'quit' to exit): ")
                    (log (EvPrint (String "010" (repeat_char "-" 30))) w))) in
  loop_body env download_dir w = Some (Ok Prompting, w')
  /\ main_loop (env :: envs) download_dir w = main_loop envs download_dir w'
  /\ gets (trace w') = gets (trace w)
  /\ same_fs w w'.
Proof.
  intros Hin Hblank w'.
  assert (loop_body env download_dir w = Some (Ok Prompting, w')) as Hbody.
  { rewrite (loop_body_reads _ _ _ _ _ Hin). cbv zeta. rewrite Hblank.
    rewrite bool_decide_false.
    - cbn [String.eqb]. by rewrite (bind_run_ok _ _ _ _ _ (print_run _ _)).
    - cbn [PyStr.lower]. rewrite !elem_of_cons, elem_of_nil. by intros [|[|[|]]]. }
  split; [done|]. split.
  { cbn [main_loop]. by rewrite (bind_run_ok _ _ _ _ _ Hbody). }
  split; [|done].
  unfold w'. cbn [trace log set_stdin]. unfold gets. rewrite !omap_snoc. cbn.
  by rewrite !app_nil_r.
Qed.

Lemma loop_prompts_again_on_blank_line_witness :
  main_loop [unreachable_env; unreachable_env] "Fetched_Images" (typing ["   "; "q"])
  = Some (Ok tt,
          world_after (main_loop [unreachable_env; unreachable_env] "Fetched_Images")
            (typing ["   "; "q"]))
  /\ gets (trace (world_after (main_loop [unreachable_env; unreachable_env] "Fetched_Images")
                    (typing ["   "; "q"]))) = [].
Proof.
  edestruct (loop_prompts_again_on_blank_line unreachable_env [unreachable_env]
               "Fetched_Images" "   " ["q"] (typing ["   "; "q"]))
    as (_ & Hloop & _ & _).
  - reflexivity.
  - reflexivity.
  - unfold world_after. rewrite Hloop. vm_compute. done.
Defined.





(** X9.  When the directory cannot be created, [main] prints the banner and
    [Cannot proceed without download directory.] and returns: it reads no
    input, sends no request and leaves the disk as it is. *)
Theorem main_stops_without_directory
    (env0 : environ) (envs : list environ) (w : world) (e : exn) :
  makedirs_error env0 "Fetched_Images" = Some e ->
  issubclass (exn_cls e) OSError = true ->
  exists w',
    main env0 envs w = Some (Ok tt, w')
    /\ stdin w' = stdin w
    /\ gets (trace w') = gets (trace w)
    /\ same_fs w w'
    /\ printed (trace w')
       = printed (trace w)
         ++ [repeat_char "=" 50; "           IMAGE DOWNLOADER"; repeat_char "=" 50;
             "This script downloads images from URLs and saves them to 'Fetched_Images' directory";
             EmptyString;
             "Error creating directory: " +:+ exn_str e;
             "Cannot proceed without download directory."].
Proof.
  intros Herr Hsub. unfold main.
  rewrite !(bind_run_ok _ _ _ _ _ (print_run _ _)). cbv zeta.
  erewrite bind_run_ok; cycle 1.
  { apply create_directory_failure; [|done]. by rewrite makedirs_run, Herr. }
  cbn [negb]. rewrite (bind_run_ok _ _ _ _ _ (print_run _ _)).
  eexists. split; [reflexivity|].
  split; [done|]. split; [by rewrite !gets_log, !app_nil_r|]. split; [done|].
  cbn [trace log]. unfold printed. rewrite !omap_snoc. cbn.
  by rewrite <- !app_assoc.
Qed.

Lemma main_stops_without_directory_witness :
  exists w',
    main {| clock := sample_time;
            http := fun _ => Responds cat_response;
            open_error := fun _ => None;
            makedirs_error := fun _ => Some (Exn PermissionError "[Errno 13] Permission denied") |}
      [sample_env] (typing [cat_url; "n"])
    = Some (Ok tt, w')
    /\ stdin w' = [cat_url; "n"].
Proof.
  edestruct (main_stops_without_directory
               {| clock := sample_time;
                  http := fun _ => Responds cat_response;
                  open_error := fun _ => None;
                  makedirs_error :=
                    fun _ => Some (Exn PermissionError "[Errno 13] Permission denied") |}
               [sample_env] (typing [cat_url; "n"]))
    as (w' & Hrun & Hin & _).
  - reflexivity.
  - reflexivity.
  - exists w'. split; [exact Hrun|exact Hin].
Defined.

(** ** Runs of the Fetcher from their causes *)

Section ForwardFacts.
Import PyStr.

Lemma raise_for_status_passes r w :
  status_passes r -> raise_for_status r w = Some (Ok tt, w).
Proof.
  unfold status_passes, raise_for_status. intros H.
  destruct (Z.leb_spec 400 (status_code r)), (Z.ltb_spec (status_code r) 500),
    (Z.leb_spec 500 (status_code r)), (Z.ltb_spec (status_code r) 600);
    cbn [andb]; try reflexivity; lia.
Qed.

Lemma raise_for_status_fails r w :
  400 <= status_code r < 600 ->
  raise_for_status r w =
  Some (Raise (Exn HTTPError
                 (pretty (status_code r)
                  +:+ (if status_code r <? 500 then " Client Error: " else " Server Error: ")
                  +:+ reason r +:+ " for url: " +:+ response_url r)), w).
Proof.
  unfold raise_for_status. intros H.
  destruct (Z.leb_spec 400 (status_code r)), (Z.ltb_spec (status_code r) 500),
    (Z.leb_spec 500 (status_code r)), (Z.ltb_spec (status_code r) 600);
    cbn [andb]; try reflexivity; lia.
Qed.

(** The attempt up to the response. *)
Lemma download_attempt_responds env url download_dir w r :
  http env url = Responds r ->
  download_attempt env url download_dir w =
  bind (raise_for_status r) (fun _ =>
    if negb (startswith "image/" (fetched_content_type r)) then
      bind (print ("Warning: Content-Type is '" +:+ fetched_content_type r
                   +:+ "' - may not be an image")) (fun _ =>
      bind (map_result lower (input "Do you want to continue downloading? (y/n): "))
        (fun proceed =>
      if bool_decide (proceed ≠ "y") then
        bind (print "Download cancelled by user.") (fun _ => ret None)
      else save_response env url download_dir (fetched_content_type r) r))
    else save_response env url download_dir (fetched_content_type r) r)
    (log (EvGet url) (log (EvPrint ("Connecting to: " +:+ url)) w)).
Proof.
  intros Hhttp. unfold download_attempt.
  rewrite (bind_run_ok _ _ _ _ _ (print_run _ _)).
  pose proof (requests_get_run env url (log (EvPrint ("Connecting to: " +:+ url)) w))
    as Hget. rewrite Hhttp in Hget.
  rewrite (bind_run_ok _ _ _ _ _ Hget). reflexivity.
Qed.



Lemma int_of_str_raises v e : int_of_str v = Raise e -> exn_cls e = ValueError.
Proof. unfold int_of_str. case_match; [done|]. by intros [= <-]. Qed.

End ForwardFacts.

(** X10.  When the server responds with a status from 400 to 599,
    [download_image] prints [Error: HTTP error occurred -] with the status,
    the kind of error, the reason and the URL of the response (that of the
    request as the library sent it, which need not be the text typed), and
    returns [None]; whatever the content type, nothing is asked, nothing is
    opened and the disk is as it was. *)
Theorem http_error_status_is_reported
    (env : environ) (url download_dir : string) (w : world) (r : response) :
  http env url = Responds r ->
  400 <= status_code r < 600 ->
  let w' :=
    log (EvPrint ("Error: HTTP error occurred - "
                  +:+ pretty (status_code r)
                  +:+ (if status_code r <? 500 then " Client Error: " else " Server Error: ")
                  +:+ reason r +:+ " for url: " +:+ response_url r))
      (log (EvGet url) (log (EvPrint ("Connecting to: " +:+ url)) w)) in
  download_image env url download_dir w = Some (Ok None, w')
  /\ same_fs w w'
  /\ stdin w' = stdin w
  /\ prompts (trace w') = prompts (trace w)
  /\ opens (trace w') = opens (trace w).
Proof.
  intros Hhttp Hstatus w'. split.
  - erewrite download_image_handles; cycle 1.
    { rewrite (download_attempt_responds _ _ _ _ _ Hhttp).
      by rewrite (bind_run_raise _ _ _ _ _ (raise_for_status_fails _ _ Hstatus)). }
    reflexivity.
  - split; [done|]. split; [done|].
    unfold w'. cbn [trace log]. unfold prompts, opens. rewrite !omap_snoc. cbn.
    by rewrite !app_nil_r.
Qed.

Lemma http_error_status_is_reported_witness :
  let fetch := download_image missing_env "http://example.com" "Fetched_Images" in
  returned fetch empty_world = Some (Ok None)
  /\ printed (trace (world_after fetch empty_world))
     = ["Connecting to: http://example.com";
        "Error: HTTP error occurred - 404 Client Error: Not Found for url: http://example.com/"].
Proof.
  cbv zeta.
  edestruct (http_error_status_is_reported missing_env "http://example.com"
               "Fetched_Images" empty_world missing_response) as [Hrun _].
  - reflexivity.
  - cbn. lia.
  - unfold returned, world_after. rewrite Hrun.
    split; [reflexivity|]. vm_compute. reflexivity.
Defined.

Section ProceedFacts.
Import PyStr.

(** With an image, or with the answer [y], the attempt goes on to
    [save_response]; the disk is still as it was. *)
Lemma download_attempt_proceeds env url download_dir w r :
  http env url = Responds r ->
  status_passes r ->
  (startswith "image/" (fetched_content_type r) = true
   \/ exists answer rest, stdin w = answer :: rest /\ lower answer = "y") ->
  exists w0,
    download_attempt env url download_dir w
    = save_response env url download_dir (fetched_content_type r) r w0
    /\ same_fs w w0
    /\ opens (trace w0) = opens (trace w)
    /\ progress (trace w0) = progress (trace w).
Proof.
  intros Hhttp Hstatus Hgo.
  rewrite (download_attempt_responds _ _ _ _ _ Hhttp).
  rewrite (bind_run_ok _ _ _ _ _ (raise_for_status_passes _ _ Hstatus)).
  destruct (startswith "image/" (fetched_content_type r)) eqn:Hct; cbn [negb].
  - eexists. split; [reflexivity|]. split; [done|].
    cbn [trace log]. unfold opens, progress. rewrite !omap_snoc. cbn.
    by rewrite !app_nil_r.
  - destruct Hgo as [?|(answer & rest & Hin & Hyes)]; [done|].
    rewrite (bind_run_ok _ _ _ _ _ (print_run _ _)).
    erewrite (bind_run_ok (map_result _ _)); cycle 1.
    { unfold map_result. erewrite bind_run_ok; [reflexivity|].
      rewrite input_run. cbn [stdin log]. by rewrite Hin. }
    rewrite bool_decide_false by (by intros ?).
    eexists. split; [reflexivity|]. split; [done|].
    cbn [trace log set_stdin]. unfold opens, progress. rewrite !omap_snoc. cbn.
    by rewrite !app_nil_r.
Qed.

Lemma probe_ext fuel (ex1 ex2 : string -> bool) original filepath counter :
  (forall p, ex1 p = ex2 p) ->
  probe fuel ex1 original filepath counter = probe fuel ex2 original filepath counter.
Proof.
  intros Hext. revert filepath counter.
  induction fuel as [|fuel IH]; intros filepath counter.
  - rewrite !probe_zero. by rewrite Hext.
  - rewrite !probe_step. by rewrite Hext, IH.
Qed.

(** The choice of the path depends on the disk only. *)
Lemma resolve_collision_same_fs w w0 filepath :
  same_fs w w0 ->
  exists free,
    resolve_collision filepath w0 = Some (Ok free, w0)
    /\ resolve_collision filepath w = Some (Ok free, w)
    /\ path_exists w free = false.
Proof.
  intros [Hf Hd].
  destruct (resolve_collision_run w filepath) as (free & Hrun & Hprobe).
  exists free. split; [|split; [done|by apply probe_some in Hprobe as [? _]]].
  unfold resolve_collision. rewrite Hf, Hd.
  rewrite (probe_ext _ (path_exists w0) (path_exists w)).
  - by rewrite Hprobe.
  - intros p. by apply path_exists_same_fs.
Qed.

Lemma suffixed_has_underscore f k : contains "_" (suffixed f k) = true.
Proof.
  unfold suffixed. destruct (PosixPath.splitext f) as [name ext].
  rewrite contains_app. change ("_" +:+ pretty k +:+ ext) with (String "_" (pretty k +:+ ext)).
  cbn [contains Ascii.eqb Bool.eqb]. apply orb_true_r.
Qed.


End ProceedFacts.





(** ** The filename, by its source *)

Section NameFacts.
Import PyStr.

Lemma all_chars_app (p : ascii -> bool) s t :
  all_chars p (s +:+ t) = all_chars p s && all_chars p t.
Proof.
  induction s as [|a s IH]; [done|].
  rewrite append_cons. cbn [all_chars]. by rewrite IH, andb_assoc.
Qed.

Lemma map_chars_app f s t : map_chars f (s +:+ t) = map_chars f s +:+ map_chars f t.
Proof.
  induction s as [|a s IH]; [done|].
  rewrite append_cons. cbn [map_chars]. by rewrite IH, append_cons.
Qed.

Lemma map_chars_fixed (p : ascii -> bool) f s :
  (forall c, p c = true -> f c = c) -> all_chars p s = true -> map_chars f s = s.
Proof.
  intros Hf. induction s as [|a s IH]; [done|]. cbn [all_chars map_chars].
  intros [Ha Hs]%andb_prop. by rewrite (Hf _ Ha), (IH Hs).
Qed.

(** The substitution leaves a string of the class as it is. *)
Lemma sub_unsafe_fixed s : all_chars Re.in_safe_class s = true -> Re.sub_unsafe s = s.
Proof.
  apply map_chars_fixed. intros c Hc. by rewrite Hc.
Qed.

Lemma first_split_prefix c s t :
  contains c s = false -> item_first (split c (s +:+ t)) = s +:+ item_first (split c t).
Proof.
  unfold item_first. induction s as [|a s IH]; [done|].
  rewrite append_cons. cbn [contains split].
  destruct (Ascii.eqb a c); [done|]. intros H. specialize (IH H).
  pose proof (split_not_nil c (s +:+ t)) as Hne.
  destruct (split c (s +:+ t)) as [|x xs]; [done|].
  cbn in IH |- *. by rewrite IH, append_cons.
Qed.

Lemma contains_period_sub_unsafe s : contains "." (Re.sub_unsafe s) = contains "." s.
Proof.
  unfold Re.sub_unsafe. induction s as [|a s IH]; [done|].
  cbn [map_chars contains]. rewrite IH.
  destruct (Re.in_safe_class a) eqn:Ha; [done|].
  destruct (Ascii.eqb_spec a ".") as [->|_]; [done|]. done.
Qed.

Lemma pad2_digits n : all_chars is_ascii_digit (pad2 n) = true.
Proof.
  unfold pad2. pose proof (pretty_N_digits (N.of_nat n)) as H.
  destruct (n <? 10)%nat; [|exact H].
  change ("0" +:+ pretty n) with (String "0" (pretty n)).
  cbn [all_chars]. exact H.
Qed.

Lemma digit_is_stamp_char s :
  all_chars is_ascii_digit s = true -> all_chars is_stamp_char s = true.
Proof.
  apply all_chars_impl. intros c Hc. unfold is_stamp_char. by rewrite Hc.
Qed.

(** The time stamp is made of digits and one underscore. *)
Lemma strftime_chars now : all_chars is_stamp_char (strftime now) = true.
Proof.
  unfold strftime. rewrite !all_chars_app.
  rewrite !(digit_is_stamp_char _ (pad2_digits _)).
  assert (all_chars is_stamp_char (pretty (year now)) = true) as ->
    by exact (digit_is_stamp_char _ (pretty_N_digits (N.of_nat (year now)))).
  reflexivity.
Qed.

Lemma stamp_char_safe c : is_stamp_char c = true -> Re.in_safe_class c = true.
Proof. destruct c as [[] [] [] [] [] [] [] []]; vm_compute; done. Qed.

(** The head of the fallback name, up to the period, is of the class. *)
Lemma timestamp_head_safe now :
  all_chars Re.in_safe_class ("image_" +:+ strftime now +:+ ".") = true.
Proof.
  rewrite !all_chars_app.
  rewrite (all_chars_impl _ _ _ stamp_char_safe (strftime_chars now)).
  reflexivity.
Qed.

(** The fallback name after lines 41 and 45. *)
Lemma sanitized_timestamp_filename now content_type :
  Re.sub_unsafe (item_first (split "?" (timestamp_filename now content_type)))
  = "image_" +:+ strftime now +:+ "."
    +:+ Re.sub_unsafe (strip_query (content_type_extension content_type)).
Proof.
  unfold timestamp_filename. cbv zeta.
  replace ("image_" +:+ strftime now +:+ "." +:+ content_type_extension content_type)
    with (("image_" +:+ strftime now +:+ ".") +:+ content_type_extension content_type)
    by by rewrite !append_assoc.
  rewrite first_split_prefix
    by exact (all_chars_not_contains Re.in_safe_class "?" _ eq_refl
                (timestamp_head_safe now)).
  unfold Re.sub_unsafe at 1. rewrite map_chars_app.
  fold (Re.sub_unsafe ("image_" +:+ strftime now +:+ ".")).
  rewrite (sub_unsafe_fixed _ (timestamp_head_safe now)).
  by rewrite !append_assoc.
Qed.

Lemma get_valid_filename_cases now url content_type f :
  get_valid_filename now url content_type = Ok f ->
  exists candidate,
    url_candidate url = Ok candidate
    /\ ((candidate_rejected candidate = true
         /\ f = "image_" +:+ strftime now +:+ "."
                +:+ Re.sub_unsafe (strip_query (content_type_extension content_type)))
        \/ (candidate_rejected candidate = false /\ f = Re.sub_unsafe candidate)).
Proof.
  unfold get_valid_filename.
  destruct (unsanitized_filename now url content_type) as [raw|e] eqn:E; [|done].
  intros [= <-].
  apply unsanitized_filename_cases in E as (candidate & Hc & [[R ->]|[R ->]]);
    exists candidate; (split; [done|]).
  - left. split; [done|]. apply sanitized_timestamp_filename.
  - right. done.
Qed.

Lemma get_valid_filename_nonempty now url content_type f :
  get_valid_filename now url content_type = Ok f -> f <> EmptyString.
Proof.
  unfold get_valid_filename.
  destruct (unsanitized_filename now url content_type) as [raw|e] eqn:E; [|done].
  intros [= <-]. apply sub_unsafe_not_empty. by eapply unsanitized_filename_not_empty.
Qed.

End NameFacts.

(** X13.  When the last segment of the URL's path is empty, has no period
    or is longer than 100 characters, the filename is [image_], the time
    stamp, a period, and the extension of the content type cut at its first
    [?] and with every character outside the class replaced by [_]; the
    time stamp holds digits and the underscore only. *)
Theorem fallback_filename_format
    (now : datetime) (url content_type candidate : string) :
  url_candidate url = Ok candidate ->
  candidate_rejected candidate = true ->
  get_valid_filename now url content_type
  = Ok ("image_" +:+ strftime now +:+ "."
        +:+ Re.sub_unsafe (strip_query (content_type_extension content_type)))
  /\ PyStr.all_chars is_stamp_char (strftime now) = true.
Proof.
  intros Hc Hr. split; [|apply strftime_chars].
  unfold get_valid_filename, unsanitized_filename. rewrite Hc, Hr.
  by rewrite sanitized_timestamp_filename.
Qed.

Lemma fallback_filename_format_witness :
  get_valid_filename sample_time "https://example.com/download" "image/svg+xml; q=1"
  = Ok "image_20240307_090500.svg_xml".
Proof.
  destruct (fallback_filename_format sample_time "https://example.com/download"
              "image/svg+xml; q=1" "download") as [H _].
  - reflexivity.
  - reflexivity.
  - rewrite H. reflexivity.
Defined.

(** X14.  Every filename that the Resolver returns has a period; it is the
    fallback name or the URL's candidate after the substitution, and then it
    has the length of the candidate, at most 100. *)
Theorem resolved_filename_shape
    (now : datetime) (url content_type f : string) :
  get_valid_filename now url content_type = Ok f ->
  PyStr.contains "." f = true
  /\ ((exists extension, f = "image_" +:+ strftime now +:+ "." +:+ extension)
      \/ (exists candidate,
            url_candidate url = Ok candidate
            /\ f = Re.sub_unsafe candidate
            /\ String.length f = String.length candidate
            /\ (String.length f <= 100)%nat)).
Proof.
  intros (candidate & Hc & [[R ->]|[R ->]])%get_valid_filename_cases.
  - split; [|left; by eexists].
    rewrite !contains_app. change (PyStr.contains "." ".") with true.
    by rewrite orb_true_l, !orb_true_r.
  - unfold candidate_rejected in R.
    apply orb_false_iff in R as [[_ Hdot]%orb_false_iff Hlen].
    apply negb_false_iff in Hdot. apply Nat.ltb_ge in Hlen.
    split; [by rewrite contains_period_sub_unsafe|].
    right. exists candidate. unfold Re.sub_unsafe. rewrite map_chars_length. done.
Qed.

Lemma resolved_filename_shape_witness :
  PyStr.contains "." "cat.jpg" = true.
Proof.
  destruct (resolved_filename_shape sample_time cat_url "image/jpeg" "cat.jpg") as [H _].
  - reflexivity.
  - exact H.
Defined.

(** ** What the Fetcher reports *)

Section LengthFacts.
Import PyStr.

Lemma handler_message_unexpected e :
  issubclass (exn_cls e) OSError = false ->
  handler_message e = "Unexpected error: " +:+ exn_str e.
Proof. destruct e as [c s]. by destruct c. Qed.

Lemma opens_snoc_print t line : opens (t ++ [EvPrint line]) = opens t.
Proof. unfold opens. rewrite omap_snoc. cbn. by rewrite app_nil_r. Qed.

End LengthFacts.

(** X15.  The [Content-Length] header is read before the file is opened:
    when its value is not a number, [download_image] prints
    [Unexpected error:] with the message of [int] and returns [None], and
    no file has been opened or created. *)
Theorem malformed_content_length_aborts
    (env : environ) (url download_dir : string) (w : world) (r : response)
    (filename value : string) :
  http env url = Responds r ->
  status_passes r ->
  (PyStr.startswith "image/" (fetched_content_type r) = true
   \/ exists answer rest, stdin w = answer :: rest /\ PyStr.lower answer = "y") ->
  get_valid_filename (clock env) url (fetched_content_type r) = Ok filename ->
  content_length_header r = Some value ->
  (forall n, int_of_str value <> Ok n) ->
  exists w',
    download_image env url download_dir w = Some (Ok None, w')
    /\ same_fs w w'
    /\ opens (trace w') = opens (trace w)
    /\ (exists e t,
          int_of_str value = Raise e
          /\ exn_cls e = ValueError
          /\ trace w' = t ++ [EvPrint ("Unexpected error: " +:+ exn_str e)]).
Proof.
  intros Hhttp Hstatus Hgo Hname Hlen Hbad.
  destruct (download_attempt_proceeds env url download_dir w r Hhttp Hstatus Hgo)
    as (w0 & Hrun & Hfs & Hopens & _).
  destruct (resolve_collision_run w0 (PosixPath.join download_dir filename))
    as (free & Hres & _).
  destruct (int_of_str value) as [n|e] eqn:Hint; [by destruct (Hbad n)|].
  pose proof (int_of_str_raises _ _ Hint) as Hcls.
  eexists. split.
  - apply download_image_handles. rewrite Hrun. unfold save_response.
    rewrite Hname. rewrite (bind_run_ok _ _ _ filename w0) by done.
    rewrite (bind_run_ok _ _ _ _ _ Hres).
    rewrite (bind_run_ok _ _ _ _ _ (print_run _ _)).
    rewrite Hlen, Hint. by erewrite bind_run_raise.
  - split; [exact Hfs|]. cbn [trace log]. rewrite !opens_snoc_print.
    split; [exact Hopens|]. exists e. eexists. split; [done|]. split; [done|].
    rewrite handler_message_unexpected; [done|]. by rewrite Hcls.
Qed.

Lemma malformed_content_length_aborts_witness :
  exists w',
    download_image garbled_env cat_url "Fetched_Images" empty_world = Some (Ok None, w')
    /\ files w' = ∅.
Proof.
  edestruct (malformed_content_length_aborts garbled_env cat_url "Fetched_Images"
               empty_world garbled_response "cat.jpg" "12 bytes")
    as (w' & Hrun & [Hfiles _] & _).
  - reflexivity.
  - left. cbn. lia.
  - left. reflexivity.
  - reflexivity.
  - reflexivity.
  - intros n [=].
  - exists w'. split; [exact Hrun|exact Hfiles].
Defined.

(** X16.  The order of the [except] clauses decides for the exceptions of
    [requests]: each of them is an [OSError] too, yet none reaches the
    clause for file errors or the last clause; one of the five clauses for
    request errors reports it, the clause for timeouts whenever the
    exception is a timeout, also when it is a connection error as well. *)
Theorem request_errors_are_reported_as_such (e : exn) :
  is_requests_class (exn_cls e) = true ->
  exists kind report,
    handling_clause e = Some (kind, report)
    /\ (kind ∈ [Timeout; ConnectionError; HTTPError; TooManyRedirects; RequestException])
    /\ issubclass (exn_cls e) OSError = true
    /\ (issubclass (exn_cls e) Timeout = true -> kind = Timeout)
    /\ (forall s, report e <> "Error: Failed to save file - " +:+ s)
    /\ (forall s, report e <> "Unexpected error: " +:+ s).
Proof.
  destruct e as [c s]. unfold is_requests_class.
  destruct c; try discriminate; intros _; do 2 eexists;
    (split; [reflexivity|]); rewrite !elem_of_cons;
    (split; [auto 10|]); (split; [reflexivity|]);
    (split; [try done|]); split; intros s'; cbn [snd]; discriminate.
Qed.

Lemma request_errors_are_reported_as_such_witness :
  handler_message (Exn ConnectTimeout "connect timeout=15")
  = "Error: Connection timed out. The server took too long to respond.".
Proof.
  destruct (request_errors_are_reported_as_such (Exn ConnectTimeout "connect timeout=15"))
    as (kind & report & Hclause & _ & _ & Hkind & _).
  - reflexivity.
  - unfold handler_message. rewrite Hclause.
    vm_compute in Hclause. injection Hclause as <- <-. reflexivity.
Defined.

(** ** Outcome and progress *)

Section OutcomeFacts.
Import PyStr.

(** A path that [download_image] returns is not the empty string, so the
    test of line 155 tells a path from [None]. *)
Lemma download_image_path_not_empty env url download_dir w free w' :
  download_image env url download_dir w = Some (Ok (Some free), w') ->
  free <> EmptyString.
Proof.
  intros H%download_image_ok.
  apply download_attempt_ok in H as (r & ct & w0 & _ & _ & Hsave & _).
  apply save_response_ok in Hsave
    as (filename & free' & total & [= <-] & Hname & Hres & _).
  destruct (get_valid_filename_no_separator _ _ _ _ Hname) as [Hs Hb].
  destruct (resolved_path_component _ _ _ _ Hs Hb Hres)
    as (component & Hform & _ & Hlast & _).
  intros ->. change (PosixPath.basename EmptyString) with EmptyString in Hlast.
  destruct Hform as [->|(k & _ & ->)].
  - by apply (get_valid_filename_nonempty _ _ _ _ Hname).
  - pose proof (suffixed_has_underscore filename k) as Hu. by rewrite <- Hlast in Hu.
Qed.

Lemma printed_snoc_print t line : printed (t ++ [EvPrint line]) = printed t ++ [line].
Proof. unfold printed. by rewrite omap_snoc. Qed.

Lemma printed_snoc_prompt t p : printed (t ++ [EvPrompt p]) = printed t.
Proof. unfold printed. rewrite omap_snoc. cbn. by rewrite app_nil_r. Qed.




End OutcomeFacts.

(** X17.  A pass of the loop in which [download_image] returns prints the
    check mark for a path and the cross for [None], and nothing else before
    it asks whether to go on; the answer chooses the next state, and
    [Goodbye!] is printed when the loop stops. *)
Theorem loop_reports_the_outcome
    (env : environ) (download_dir line : string) (rest : list string)
    (w w2 : world) (res : option string) (answer : string) (rest' : list string) :
  let url := PyStr.strip line in
  let w0 := set_stdin rest
              (log (EvPrompt "Enter the image URL (or 'quit' to exit): ")
                 (log (EvPrint (String "010" (repeat_char "-" 30))) w)) in
  stdin w = line :: rest ->
  (PyStr.lower url ∉ ["quit"; "exit"; "q"]) ->
  url <> EmptyString ->
  download_image env url download_dir w0 = Some (Ok res, w2) ->
  stdin w2 = answer :: rest' ->
  exists w3,
    loop_body env download_dir w = Some (Ok (state_after_answer answer), w3)
    /\ printed (trace w3)
       = printed (trace w2)
         ++ [match res with
             | Some _ => "✓ Download successful!"
             | None => "✗ Download failed."
             end]
         ++ match state_after_answer answer with
            | Terminated => ["Goodbye!"]
            | Prompting => []
            end
    /\ stdin w3 = rest'.
Proof.
  intros url w0 Hin Hquit Hurl Hdl Hans.
  rewrite (loop_body_reads _ _ _ _ _ Hin). cbv zeta. fold url.
  rewrite bool_decide_false by done.
  destruct (String.eqb_spec url EmptyString) as [|_]; [done|].
  fold w0. rewrite (bind_run_ok _ _ _ _ _ Hdl).
  assert (truthy res = match res with Some _ => true | None => false end) as ->.
  { destruct res as [free|]; [|done]. cbn [truthy].
    apply download_image_path_not_empty in Hdl.
    by destruct (String.eqb_spec free EmptyString). }
  set (verdict := match res with
                  | Some _ => "✓ Download successful!"
                  | None => "✗ Download failed."
                  end).
  assert ((if match res with Some _ => true | None => false end
           then print "✓ Download successful!"
           else print "✗ Download failed.") = print verdict) as ->
    by by destruct res.
  rewrite (bind_run_ok _ _ _ _ _ (print_run _ _)).
  unfold map_result.
  erewrite (bind_run_ok (bind (input _) _)); cycle 1.
  { erewrite bind_run_ok; [reflexivity|]. rewrite input_run. cbn [stdin log].
    by rewrite Hans. }
  unfold state_after_answer. destruct (bool_decide (PyStr.lower answer ≠ "y")).
  - rewrite (bind_run_ok _ _ _ _ _ (print_run _ _)). eexists. split; [reflexivity|].
    split; [|done]. cbn [trace log set_stdin].
    by rewrite printed_snoc_print, printed_snoc_prompt, printed_snoc_print, <- app_assoc.
  - eexists. split; [reflexivity|].
    split; [|done]. cbn [trace log set_stdin].
    by rewrite printed_snoc_prompt, printed_snoc_print.
Qed.

Lemma loop_reports_the_outcome_witness :
  exists w3,
    loop_body sample_env "Fetched_Images" (typing [cat_url; "n"])
    = Some (Ok Terminated, w3)
    /\ "✓ Download successful!" ∈ printed (trace w3).
Proof.
  edestruct (loop_reports_the_outcome sample_env "Fetched_Images" cat_url ["n"]
               (typing [cat_url; "n"]))
    as (w3 & Hbody & Hprinted & _).
  - reflexivity.
  - intros H. rewrite !elem_of_cons, elem_of_nil in H.
    by destruct H as [H|[H|[H|H]]]; vm_compute in H.
  - intros [=].
  - vm_compute. reflexivity.
  - reflexivity.
  - exists w3. split; [exact Hbody|].
    rewrite Hprinted, !elem_of_app, !elem_of_cons. auto.
Defined.



(** ** Failures on the way to the file *)

Section FailureFacts.
Import PyStr.

Lemma handler_message_file_error e :
  issubclass (exn_cls e) OSError = true ->
  is_requests_class (exn_cls e) = false ->
  handler_message e = "Error: Failed to save file - " +:+ exn_str e.
Proof. destruct e as [c s]. by destruct c. Qed.

Lemma open_file_fails env p mode w e :
  open_error env p = Some e ->
  open_file env p mode w = Some (Raise e, log (EvOpen p mode) w).
Proof.
  intros Herr. unfold open_file. rewrite (bind_run_ok _ _ _ _ _ (emit_run _ _)).
  by rewrite Herr.
Qed.

Lemma opens_snoc_open t p mode : opens (t ++ [EvOpen p mode]) = opens t ++ [(p, mode)].
Proof. unfold opens. by rewrite omap_snoc. Qed.

End FailureFacts.

(** X19.  When the file cannot be opened (the filename being other than
    [.] and [..]), [download_image] prints [Error: Failed to save file -]
    with the text of the error and returns [None]; it has tried to open one
    path, which was free, and the disk is as it was. *)
Theorem open_failure_is_reported
    (env : environ) (url download_dir : string) (w : world) (r : response)
    (filename : string) (e : exn) :
  http env url = Responds r ->
  status_passes r ->
  (PyStr.startswith "image/" (fetched_content_type r) = true
   \/ exists answer rest, stdin w = answer :: rest /\ PyStr.lower answer = "y") ->
  get_valid_filename (clock env) url (fetched_content_type r) = Ok filename ->
  filename <> "." -> filename <> ".." ->
  (exists n, match content_length_header r with Some v => int_of_str v | None => Ok 0 end
             = Ok n) ->
  (forall p, open_error env p = Some e) ->
  issubclass (exn_cls e) OSError = true ->
  is_requests_class (exn_cls e) = false ->
  exists free w',
    download_image env url download_dir w = Some (Ok None, w')
    /\ path_exists w free = false
    /\ opens (trace w') = opens (trace w) ++ [(free, WriteBinary)]
    /\ same_fs w w'
    /\ (exists t,
          trace w' = t ++ [EvPrint ("Error: Failed to save file - " +:+ exn_str e)]).
Proof.
  intros Hhttp Hstatus Hgo Hname _ _ [n Hlen] Hopen Hsub Hreq.
  destruct (download_attempt_proceeds env url download_dir w r Hhttp Hstatus Hgo)
    as (w0 & Hrun & Hfs & Hopens & _).
  destruct (resolve_collision_same_fs w w0 (PosixPath.join download_dir filename) Hfs)
    as (free & Hres0 & _ & Hfree).
  exists free. eexists. split.
  - apply download_image_handles. rewrite Hrun. unfold save_response.
    rewrite Hname. rewrite (bind_run_ok _ _ _ filename w0) by done.
    rewrite (bind_run_ok _ _ _ _ _ Hres0).
    rewrite (bind_run_ok _ _ _ _ _ (print_run _ _)).
    rewrite Hlen. rewrite (bind_run_ok _ _ _ n _) by done.
    by rewrite (bind_run_raise _ _ _ _ _ (open_file_fails _ _ _ _ _ (Hopen free))).
  - split; [exact Hfree|]. rewrite (handler_message_file_error _ Hsub Hreq).
    cbn [trace log].
    rewrite opens_snoc_print, opens_snoc_open, opens_snoc_print, Hopens.
    split; [done|]. split; [exact Hfs|]. by eexists.
Qed.

Lemma open_failure_is_reported_witness :
  exists w',
    download_image read_only_env cat_url "Fetched_Images" empty_world = Some (Ok None, w')
    /\ files w' = ∅.
Proof.
  edestruct (open_failure_is_reported read_only_env cat_url "Fetched_Images"
               empty_world cat_response "cat.jpg")
    as (free & w' & Hrun & _ & _ & [Hfiles _] & _).
  - reflexivity.
  - left. cbn. lia.
  - left. reflexivity.
  - reflexivity.
  - intros [=].
  - intros [=].
  - exists 3. reflexivity.
  - reflexivity.
  - reflexivity.
  - reflexivity.
  - exists w'. split; [exact Hrun|exact Hfiles].
Defined.

(** X20.  When the content type is not an image and the input has ended,
    the [EOFError] of the question is caught by the last clause:
    [download_image] prints [Unexpected error: EOF when reading a line] and
    returns [None]; nothing is opened and the disk is as it was. *)
Theorem end_of_input_at_the_question
    (env : environ) (url download_dir : string) (w : world) (r : response) :
  http env url = Responds r ->
  status_passes r ->
  PyStr.startswith "image/" (fetched_content_type r) = false ->
  stdin w = [] ->
  exists w',
    download_image env url download_dir w = Some (Ok None, w')
    /\ same_fs w w'
    /\ opens (trace w') = opens (trace w)
    /\ prompts (trace w')
       = prompts (trace w) ++ ["Do you want to continue downloading? (y/n): "]
    /\ (exists t, trace w' = t ++ [EvPrint "Unexpected error: EOF when reading a line"]).
Proof.
  intros Hhttp Hstatus Hct Hin. eexists. split.
  - apply download_image_handles.
    rewrite (download_attempt_responds _ _ _ _ _ Hhttp).
    rewrite (bind_run_ok _ _ _ _ _ (raise_for_status_passes _ _ Hstatus)).
    rewrite Hct. cbn [negb].
    rewrite (bind_run_ok _ _ _ _ _ (print_run _ _)).
    erewrite (bind_run_raise (map_result _ _)); [reflexivity|].
    unfold map_result. erewrite bind_run_raise; [reflexivity|].
    rewrite input_run. cbn [stdin log]. by rewrite Hin.
  - split; [done|]. cbn [trace log].
    split; [|split; [|by eexists]].
    + unfold opens. rewrite !omap_snoc. cbn. by rewrite !app_nil_r.
    + unfold prompts. rewrite !omap_snoc. cbn. by rewrite !app_nil_r.
Qed.

Lemma end_of_input_at_the_question_witness :
  returned (download_image page_env "https://example.com/index.html" "Fetched_Images")
    empty_world
  = Some (Ok None).
Proof.
  edestruct (end_of_input_at_the_question page_env "https://example.com/index.html"
               "Fetched_Images" empty_world page_response)
    as (w' & Hrun & _).
  - reflexivity.
  - left. cbn. lia.
  - reflexivity.
  - reflexivity.
  - unfold returned. rewrite Hrun. reflexivity.
Defined.

(** X21.  When the directory can be created, [main] prints the banner,
    creates [Fetched_Images], prints that it is ready and enters the loop
    with that directory; before the loop it reads nothing, sends no request
    and changes no file. *)
Theorem main_enters_loop_with_directory
    (env0 : environ) (envs : list environ) (w : world) :
  makedirs_error env0 "Fetched_Images" = None ->
  "Fetched_Images" ∉ dom (files w) ->
  exists w1,
    main env0 envs w = main_loop envs "Fetched_Images" w1
    /\ path_exists w1 "Fetched_Images" = true
    /\ dirs w1 = {["Fetched_Images"]} ∪ dirs w
    /\ files w1 = files w
    /\ stdin w1 = stdin w
    /\ gets (trace w1) = gets (trace w)
    /\ printed (trace w1)
       = printed (trace w)
         ++ [repeat_char "=" 50; "           IMAGE DOWNLOADER"; repeat_char "=" 50;
             "This script downloads images from URLs and saves them to 'Fetched_Images' directory";
             EmptyString;
             "Directory 'Fetched_Images' is ready."].
Proof.
  intros Herr Hfile. unfold main.
  rewrite !(bind_run_ok _ _ _ _ _ (print_run _ _)). cbv zeta.
  erewrite bind_run_ok; cycle 1.
  { apply create_directory_success; [exact Herr|exact Hfile]. }
  cbn [negb]. eexists. split; [reflexivity|].
  split; [apply path_exists_elem; cbn; set_solver|].
  split; [done|]. split; [done|]. split; [done|].
  cbn [trace log set_dirs]. split.
  - unfold gets. rewrite !omap_snoc. cbn. by rewrite !app_nil_r.
  - unfold printed. rewrite !omap_snoc. cbn. by rewrite ?app_nil_r, <- !app_assoc.
Qed.

Lemma main_enters_loop_with_directory_witness :
  exists w1,
    main sample_env [sample_env]
      {| files := ∅; dirs := ∅; stdin := ["q"]; trace := [] |}
    = main_loop [sample_env] "Fetched_Images" w1
    /\ path_exists w1 "Fetched_Images" = true
    /\ stdin w1 = ["q"].
Proof.
  edestruct (main_enters_loop_with_directory sample_env [sample_env]
               {| files := ∅; dirs := ∅; stdin := ["q"]; trace := [] |})
    as (w1 & Hrun & Hexists & _ & _ & Hin & _).
  - reflexivity.
  - cbn. set_solver.
  - exists w1. split; [exact Hrun|]. split; [exact Hexists|exact Hin].
Defined.
